(** * termux-web-terminal: process lifecycle and streaming execution

    A shallow embedding of the process-supervision part of [bot.py]:
    [log_message], [kill_process_tree], [get_all_processes],
    [execute_command_stream] and the routes [api_stop], [api_stop_pid],
    [api_kill_all] and [api_ctrl].

    The program talks to the operating system through [subprocess], [psutil],
    [os.kill], [datetime.now] and [print].  These calls are modelled by an
    oracle [OS] whose answers may depend on everything that happened so far
    (the [history] of the world), and every call is appended to that history.
    Python exceptions are modelled by a state-and-exception monad [M]: a
    raising computation keeps the mutations it made before raising.

    Strings are sequences of code points below 256, integers are [Z]. *)

From Stdlib Require Import ZArith String Ascii List Bool Lia DecimalString.
Import ListNotations.
Local Open Scope string_scope.
Local Open Scope Z_scope.

(** ** Python strings *)

Module PyStr.

(** [needle in hay] for [str]. *)
Fixpoint contains (needle hay : string) : bool :=
  String.prefix needle hay ||
  match hay with
  | EmptyString => false
  | String _ rest => contains needle rest
  end.

Definition lower_char (c : ascii) : ascii :=
  let n := N_of_ascii c in
  if ((65 <=? n) && (n <=? 90))%N then ascii_of_N (n + 32)
  else if ((192 <=? n) && (n <=? 222) && negb (n =? 215))%N
       then ascii_of_N (n + 32)
  else c.

(** [s.lower()] *)
Fixpoint lower (s : string) : string :=
  match s with
  | EmptyString => EmptyString
  | String c rest => String (lower_char c) (lower rest)
  end.

(** [str.isspace] on one code point. *)
Definition isspace (c : ascii) : bool :=
  let n := N_of_ascii c in
  (((9 <=? n) && (n <=? 13)) || ((28 <=? n) && (n <=? 32))
   || (n =? 133) || (n =? 160))%N.

(** [s.rstrip()] *)
Fixpoint rstrip (s : string) : string :=
  match s with
  | EmptyString => EmptyString
  | String c rest =>
      match rstrip rest with
      | EmptyString => if isspace c then EmptyString else String c EmptyString
      | r => String c r
      end
  end.

(** [str(n)] for an [int]. *)
Definition of_int (n : Z) : string := NilZero.string_of_int (Z.to_int n).

(** [str(l)] for a list of [int]. *)
Definition of_int_list (l : list Z) : string :=
  "[" ++ String.concat ", " (map of_int l) ++ "]".

(** [sep.join(l)] *)
Definition join (sep : string) (l : list string) : string :=
  String.concat sep l.

Definition newline : string := String (ascii_of_nat 10) EmptyString.

End PyStr.

(** ** The outside world *)

Inductive Exn : Type :=
| NoSuchProcess (msg : string)      (* psutil.NoSuchProcess *)
| KeyError (key : Z)
| Exception (msg : string).         (* any other subclass of Exception *)

(** [str(e)] *)
Definition exn_str (e : Exn) : string :=
  match e with
  | NoSuchProcess msg => msg
  | KeyError key => PyStr.of_int key
  | Exception msg => msg
  end.

Inductive Res (A : Type) : Type :=
| Ret (a : A)
| Raise (e : Exn).
Arguments Ret {A} a.
Arguments Raise {A} e.

Inductive Signal : Type := SIGINT | SIGTSTP.

(** The handle returned by [subprocess.Popen]: [stdout_readline n] is what
    the (n+1)-th call of [process.stdout.readline()] returns, the empty
    string standing for end of file, and [returncode] is the exit status
    that [process.wait()] collects. *)
Record Popen : Type := {
  popen_pid : Z;
  stdout_readline : nat -> Res string;
  returncode : Z
}.

(** What [process_iter] reads of one process: [proc.info['cmdline']] and
    [proc.info['name']], each [None] when access is denied. *)
Record ProcAttrs : Type := {
  attr_cmdline : option (list string);
  attr_name : option string
}.

Inductive Event : Type :=
| EvPrint (line : string)                 (* print(log_entry) *)
| EvProcess (pid : Z)                     (* psutil.Process(pid) *)
| EvChildren (pid : Z)                    (* parent.children(recursive=True) *)
| EvKill (pid : Z)                        (* Process.kill() *)
| EvSignal (pid : Z) (sig : Signal)       (* os.kill(pid, sig) *)
| EvPopen (command cwd : string)          (* subprocess.Popen(..., shell=True) *)
| EvReadline (pid : Z)
| EvWait (pid : Z)
| EvPids                                  (* process_iter takes the pid list *)
| EvProcInfo (pid : Z) (info : option ProcAttrs)  (* process_iter inspects a pid *)
| EvIsRunning (pid : Z)
| EvCreateTime (pid : Z).

(** The operating system: each answer is a function of the history. *)
Record OS : Type := {
  os_now : list Event -> string;          (* now().strftime("%H:%M:%S") *)
  os_Process : list Event -> Z -> Res unit;
  os_children : list Event -> Z -> Res (list Z);
  os_kill : list Event -> Z -> Res unit;
  os_signal : list Event -> Z -> Signal -> Res unit;
  os_Popen : list Event -> string -> string -> Res Popen;
  os_pids : list Event -> list Z;
  os_proc_info : list Event -> Z -> option ProcAttrs;
  os_is_running : list Event -> Z -> Res bool;
  os_create_time : list Event -> Z -> Res string
}.

(** ** The program state *)

(** One value of [state.processes]. *)
Record Info : Type := {
  info_process : Popen;
  info_cmd : string;
  info_type : string
}.

(** A Python [dict] with integer keys keeps its keys unique and in insertion
    order. *)
Module Dict.
Section Ops.
Context {V : Type}.
Definition t := list (Z * V).

Definition keys (d : t) : list Z := map fst d.
Definition items (d : t) : list (Z * V) := d.

(** [k in d] *)
Definition mem (k : Z) (d : t) : bool := existsb (Z.eqb k) (keys d).

Fixpoint get (k : Z) (d : t) : option V :=
  match d with
  | [] => None
  | (k', v) :: rest => if k =? k' then Some v else get k rest
  end.

(** [d[k] = v]: replaces the value in place, or appends a new key. *)
Fixpoint set (k : Z) (v : V) (d : t) : t :=
  match d with
  | [] => [(k, v)]
  | (k', v') :: rest =>
      if k =? k' then (k', v) :: rest else (k', v') :: set k v rest
  end.

(** What is left after [del d[k]]. *)
Definition remove (k : Z) (d : t) : t :=
  filter (fun kv => negb (k =? fst kv)) d.

Definition wf (d : t) : Prop := NoDup (keys d).
End Ops.
Arguments t V : clear implicits.
End Dict.

(** [TerminalState], restricted to the fields the process subsystem uses. *)
Record TerminalState : Type := {
  processes : Dict.t Info;
  logs : list string
}.

Record World : Type := {
  state : TerminalState;
  history : list Event
}.

(** ** Computations *)

Definition M (A : Type) : Type := World -> Res A * World.

Definition ret {A} (a : A) : M A := fun w => (Ret a, w).

Definition raise {A} (e : Exn) : M A := fun w => (Raise e, w).

Definition bind {A B} (m : M A) (k : A -> M B) : M B :=
  fun w =>
    match m w with
    | (Ret a, w') => k a w'
    | (Raise e, w') => (Raise e, w')
    end.

Notation "x <- m ;; k" := (bind m (fun x => k))
  (at level 61, m at next level, right associativity).
Notation "m ;; k" := (bind m (fun _ => k))
  (at level 61, right associativity).

(** [try: m  except ...: handler] *)
Definition try_except {A} (m : M A) (handler : Exn -> M A) : M A :=
  fun w =>
    match m w with
    | (Ret a, w') => (Ret a, w')
    | (Raise e, w') => handler e w'
    end.

(** A call into the operating system: answered from the history, recorded. *)
Definition call {A} (answer : list Event -> Res A) (ev : Event) : M A :=
  fun w =>
    (answer (history w),
     {| state := state w; history := history w ++ [ev] |}).

Definition get_state : M TerminalState := fun w => (Ret (state w), w).

Definition set_processes (d : Dict.t Info) : M unit :=
  fun w =>
    (Ret tt, {| state := {| processes := d; logs := logs (state w) |};
                history := history w |}).

Definition set_logs (l : list string) : M unit :=
  fun w =>
    (Ret tt, {| state := {| processes := processes (state w); logs := l |};
                history := history w |}).

(** [for x in l: acc = body x acc] *)
Fixpoint for_each {A B} (l : list A) (acc : B) (body : A -> B -> M B) : M B :=
  match l with
  | [] => ret acc
  | x :: rest => acc' <- body x acc ;; for_each rest acc' body
  end.

(** [l[-n:]] for a positive [n]. *)
Definition last_n {A} (n : nat) (l : list A) : list A :=
  skipn (length l - n) l.

(** ** The program *)

Section Program.

Variable os : OS.

(** *** Operating-system calls *)

Definition datetime_now : M string :=
  fun w => (Ret (os_now os (history w)), w).

Definition print (line : string) : M unit :=
  call (fun _ => Ret tt) (EvPrint line).

Definition psutil_Process (pid : Z) : M unit :=
  call (fun h => os_Process os h pid) (EvProcess pid).

Definition Process_children (pid : Z) : M (list Z) :=
  call (fun h => os_children os h pid) (EvChildren pid).

Definition Process_kill (pid : Z) : M unit :=
  call (fun h => os_kill os h pid) (EvKill pid).

Definition os_kill_signal (pid : Z) (sig : Signal) : M unit :=
  call (fun h => os_signal os h pid sig) (EvSignal pid sig).

Definition subprocess_Popen (command cwd : string) : M Popen :=
  call (fun h => os_Popen os h command cwd) (EvPopen command cwd).

Definition readline (p : Popen) (n : nat) : M string :=
  call (fun _ => stdout_readline p n) (EvReadline (popen_pid p)).

Definition Popen_wait (p : Popen) : M unit :=
  call (fun _ => Ret tt) (EvWait (popen_pid p)).

Definition Process_is_running (pid : Z) : M bool :=
  call (fun h => os_is_running os h pid) (EvIsRunning pid).

Definition Process_create_time (pid : Z) : M string :=
  call (fun h => os_create_time os h pid) (EvCreateTime pid).

(** [psutil.process_iter(attrs)]: the pid list is taken once; each pid is
    then inspected when the loop reaches it, which is recorded with what was
    read, and a process that is gone by then is skipped.  [body] is the loop
    body, [acc] the loop's local variable. *)
Definition inspect (pid : Z) : M (option ProcAttrs) :=
  fun w =>
    let r := os_proc_info os (history w) pid in
    (Ret r,
     {| state := state w; history := history w ++ [EvProcInfo pid r] |}).

Definition for_process_iter {B} (acc : B) (body : Z -> ProcAttrs -> B -> M B)
  : M B :=
  pids <- call (fun h => Ret (os_pids os h)) EvPids ;;
  for_each pids acc
    (fun pid acc =>
       r <- inspect pid ;;
       match r with
       | Some attrs => body pid attrs acc
       | None => ret acc
       end).

(** *** [log_message] *)

Definition log_message (msg level : string) : M string :=
  timestamp <- datetime_now ;;
  let log_entry := "[" ++ timestamp ++ "] [" ++ level ++ "] " ++ msg in
  st <- get_state ;;
  set_logs (logs st ++ [log_entry])%list ;;
  st <- get_state ;;
  (if (1000 <? length (logs st))%nat
   then set_logs (last_n 1000 (logs st))
   else ret tt) ;;
  print log_entry ;;
  ret log_entry.

(** *** [kill_process_tree] *)

Definition kill_process_tree (pid : Z) : M bool :=
  try_except
    (psutil_Process pid ;;
     children <- Process_children pid ;;
     for_each children tt
       (fun child _ => try_except (Process_kill child) (fun _ => ret tt)) ;;
     try_except (Process_kill pid) (fun _ => ret tt) ;;
     ret true)
    (fun e =>
       match e with
       | NoSuchProcess _ => ret false
       | _ =>
           log_message ("Error killing process " ++ PyStr.of_int pid ++ ": "
                        ++ exn_str e) "ERROR" ;;
           ret false
       end).

(** *** [get_all_processes] *)

Record ProcView : Type := {
  view_pid : Z;
  view_cmd : string;
  view_status : string;
  view_start_time : string;
  view_type : string
}.

Definition get_all_processes : M (list ProcView) :=
  st <- get_state ;;
  for_each (Dict.items (processes st)) []
    (fun '(pid, info) procs =>
       try_except
         (psutil_Process pid ;;
          running <- Process_is_running pid ;;
          start <- Process_create_time pid ;;
          ret (procs ++ [{| view_pid := pid;
                            view_cmd := info_cmd info;
                            view_status := if running then "running" else "dead";
                            view_start_time := start;
                            view_type := info_type info |}])%list)
         (fun _ =>
            ret (procs ++ [{| view_pid := pid;
                              view_cmd := info_cmd info;
                              view_status := "dead";
                              view_start_time := "unknown";
                              view_type := info_type info |}])%list)).

(** *** Registry updates *)

(** [state.processes[pid] = info] *)
Definition processes_setitem (pid : Z) (info : Info) : M unit :=
  st <- get_state ;;
  set_processes (Dict.set pid info (processes st)).

(** [del state.processes[pid]] *)
Definition processes_delitem (pid : Z) : M unit :=
  st <- get_state ;;
  if Dict.mem pid (processes st)
  then set_processes (Dict.remove pid (processes st))
  else raise (KeyError pid).

(** *** [execute_command_stream]

    A generator: [Gen] is the point where it is suspended, [next] runs it
    to its next [yield].  Other requests may change the world while it is
    suspended, so [next] takes the world it is resumed in. *)

Inductive Gen : Type :=
| GenStart (command cwd : string)     (* created, not started *)
| GenLine (p : Popen) (n : nat)       (* at the yield of an output line,
                                         [n] lines read so far *)
| GenMarker (p : Popen)               (* at the yield of the exit-code line *)
| GenError                            (* at the yield of the error line *)
| GenDone.                            (* returned *)

Definition exit_marker (code : Z) : string :=
  PyStr.newline ++ "[Process completed with exit code: " ++ PyStr.of_int code
  ++ "]" ++ PyStr.newline.

Definition error_line (e : Exn) : string :=
  "Error executing command: " ++ exn_str e ++ PyStr.newline.

(** The loop [for line in iter(process.stdout.readline, '')] from its
    (n+1)-th read to the next [yield]; a line that is read is not empty,
    so [if line:] holds. *)
Definition read_loop (p : Popen) (n : nat) : M (option string * Gen) :=
  line <- readline p n ;;
  if String.eqb line ""
  then
    Popen_wait p ;;
    st <- get_state ;;
    (if Dict.mem (popen_pid p) (processes st)
     then processes_delitem (popen_pid p)
     else ret tt) ;;
    ret (Some (exit_marker (returncode p)), GenMarker p)
  else
    ret (Some (PyStr.rstrip line ++ PyStr.newline), GenLine p (S n)).

Definition spawn (command cwd : string) : M (option string * Gen) :=
  process <- subprocess_Popen command cwd ;;
  let pid := popen_pid process in
  processes_setitem pid
    {| info_process := process;
       info_cmd := command;
       info_type := if PyStr.contains "python" (PyStr.lower command)
                    then "python" else "bash" |} ;;
  read_loop process 0.

(** [except Exception as e: yield f"Error executing command: {str(e)}\n"] *)
Definition except_yield_error (m : M (option string * Gen))
  : M (option string * Gen) :=
  try_except m (fun e => ret (Some (error_line e), GenError)).

Definition next (g : Gen) : M (option string * Gen) :=
  match g with
  | GenStart command cwd =>
      log_message ("Executing: " ++ command) "COMMAND" ;;
      except_yield_error (spawn command cwd)
  | GenLine p n => except_yield_error (read_loop p n)
  | GenMarker _ | GenError | GenDone => ret (None, GenDone)
  end.

(** The consumer [for line in execute_command_stream(cmd, cwd)] with nothing
    else running: the chunks of at most [fuel] resumptions. *)
Fixpoint drain (fuel : nat) (g : Gen) (w : World)
  : list string * Gen * World :=
  match fuel with
  | O => ([], g, w)
  | S fuel' =>
      match next g w with
      | (Ret (Some chunk, g'), w') =>
          let '(chunks, g'', w'') := drain fuel' g' w' in
          (chunk :: chunks, g'', w'')
      | (Ret (None, g'), w') => ([], g', w')
      | (Raise _, w') => ([], GenDone, w')
      end
  end.

Definition execute_command_stream (fuel : nat) (command cwd : string)
  : World -> list string * Gen * World :=
  drain fuel (GenStart command cwd).

(** *** Routes

    A route is run on the decoded request field and returns the fields of
    the JSON object it answers with. *)

Record Response : Type := {
  success : bool;
  message : option string;
  killed : option (list Z)
}.

Definition len {A} (l : list A) : string :=
  PyStr.of_int (Z.of_nat (length l)).

(** [/api/stop] *)
Definition api_stop (filename : string) : M Response :=
  log_message ("Stop requested for: " ++ filename) "PROCESS" ;;
  st <- get_state ;;
  killed <- for_each (Dict.items (processes st)) []
    (fun '(pid, info) killed =>
       if PyStr.contains filename (info_cmd info) then
         ok <- kill_process_tree pid ;;
         if ok : bool then
           processes_delitem pid ;;
           let killed := (killed ++ [pid])%list in
           log_message ("Killed process " ++ PyStr.of_int pid ++ " for "
                        ++ filename) "PROCESS" ;;
           ret killed
         else ret killed
       else ret killed) ;;
  killed <- for_process_iter killed
    (fun pid attrs killed =>
       try_except
         (let cmdline :=
            PyStr.join " " (match attr_cmdline attrs with
                            | Some l => l
                            | None => []
                            end) in
          if PyStr.contains filename cmdline then
            ok <- kill_process_tree pid ;;
            if ok : bool then
              let killed := (killed ++ [pid])%list in
              log_message ("Killed system process " ++ PyStr.of_int pid
                           ++ " for " ++ filename) "PROCESS" ;;
              ret killed
            else ret killed
          else ret killed)
         (fun _ => ret killed)) ;;
  match killed with
  | _ :: _ =>
      ret {| success := true;
             message := Some ("Stopped " ++ len killed ++ " processes for "
                              ++ filename);
             killed := Some killed |}
  | [] =>
      ret {| success := false;
             message := Some ("No process found for " ++ filename);
             killed := None |}
  end.

(** [/api/stop_pid] *)
Definition api_stop_pid (pid : Z) : M Response :=
  try_except
    (ok <- kill_process_tree pid ;;
     if ok : bool then
       st <- get_state ;;
       (if Dict.mem pid (processes st)
        then processes_delitem pid
        else ret tt) ;;
       ret {| success := true;
              message := Some ("Process " ++ PyStr.of_int pid ++ " stopped");
              killed := None |}
     else
       ret {| success := false;
              message := Some ("Process " ++ PyStr.of_int pid ++ " not found");
              killed := None |})
    (fun e =>
       ret {| success := false; message := Some (exn_str e); killed := None |}).

(** [/api/kill_all] *)
Definition api_kill_all : M Response :=
  st <- get_state ;;
  killed <- for_each (Dict.keys (processes st)) []
    (fun pid killed =>
       ok <- kill_process_tree pid ;;
       if ok : bool then
         let killed := (killed ++ [pid])%list in
         processes_delitem pid ;;
         ret killed
       else ret killed) ;;
  killed <- for_process_iter killed
    (fun pid attrs killed =>
       try_except
         (match attr_name attrs with
          | None => raise (Exception "'NoneType' object has no attribute 'lower'")
          | Some name =>
              if PyStr.contains "python" (PyStr.lower name) then
                ok <- kill_process_tree pid ;;
                if ok : bool then ret (killed ++ [pid])%list else ret killed
              else ret killed
          end)
         (fun _ => ret killed)) ;;
  log_message ("Killed all processes: " ++ PyStr.of_int_list killed) "SYSTEM" ;;
  ret {| success := true;
         message := Some ("Killed " ++ len killed ++ " processes");
         killed := Some killed |}.

(** [/api/ctrl] *)
Definition api_ctrl (key : string) : M Response :=
  st <- get_state ;;
  for_each (Dict.keys (processes st)) tt
    (fun pid _ =>
       try_except
         ((if String.eqb key "C" then os_kill_signal pid SIGINT
           else if String.eqb key "Z" then os_kill_signal pid SIGTSTP
           else ret tt) ;;
          log_message ("Sent Ctrl+" ++ key ++ " to process " ++ PyStr.of_int pid)
            "SIGNAL" ;;
          ret tt)
         (fun _ => ret tt)) ;;
  ret {| success := true; message := None; killed := None |}.

End Program.

(** ** Concrete worlds

    Operating systems that answer the same whatever the history, used to run
    the program on examples. *)

Module Examples.

Definition handle (pid : Z) (output : list string) (code : Z) : Popen :=
  {| popen_pid := pid;
     stdout_readline := fun n => Ret (nth n output "");
     returncode := code |}.

Definition static_os (process : Z -> Res unit) (children : Z -> Res (list Z))
    (popen : string -> Res Popen) (pids : list Z)
    (info : Z -> option ProcAttrs) : OS :=
  {| os_now := fun _ => "12:00:00";
     os_Process := fun _ => process;
     os_children := fun _ => children;
     os_kill := fun _ _ => Ret tt;
     os_signal := fun _ _ _ => Ret tt;
     os_Popen := fun _ command _ => popen command;
     os_pids := fun _ => pids;
     os_proc_info := fun _ => info;
     os_is_running := fun _ _ => Ret true;
     os_create_time := fun _ _ => Ret "11:59:00" |}.

Definition gone (pid : Z) : Res unit :=
  Raise (NoSuchProcess "process no longer exists").

Definition no_spawn (command : string) : Res Popen :=
  Raise (Exception "[Errno 13] Permission denied: '/bin/sh'").

(** A shell that runs: [echo hello] prints its line; any other command is
    not found, which the shell reports on its output with status 127. *)
Definition sh (command : string) : Res Popen :=
  if String.eqb command "echo hello"
  then Ret (handle 4242 ["hello" ++ PyStr.newline] 0)
  else Ret (handle 4243
              ["/bin/sh: 1: " ++ command ++ ": not found" ++ PyStr.newline]
              127).

(** A child whose output is not valid UTF-8: the read raises. *)
Definition binary_output (command : string) : Res Popen :=
  Ret {| popen_pid := 4244;
         stdout_readline := fun _ =>
           Raise (Exception "'utf-8' codec can't decode byte 0x80 in position 24: invalid start byte");
         returncode := 0 |}.

(** Nothing but the service is running. *)
Definition os_empty : OS := static_os gone (fun _ => Ret []) no_spawn [] (fun _ => None).

(** The shell can be started. *)
Definition os_sh : OS := static_os gone (fun _ => Ret []) sh [] (fun _ => None).

Definition os_binary : OS :=
  static_os gone (fun _ => Ret []) binary_output [] (fun _ => None).

(** Every pid resolves, and has no children. *)
Definition os_alive : OS :=
  static_os (fun _ => Ret tt) (fun _ => Ret []) no_spawn [] (fun _ => None).

(** Every pid resolves, but the children cannot be listed. *)
Definition os_denied : OS :=
  static_os (fun _ => Ret tt)
    (fun _ => Raise (Exception "psutil.AccessDenied"))
    no_spawn [] (fun _ => None).

(** Every pid resolves, but is gone when its children are listed. *)
Definition os_vanishing : OS :=
  static_os (fun _ => Ret tt)
    (fun _ => Raise (NoSuchProcess "process no longer exists"))
    no_spawn [] (fun _ => None).

(** Process 7 with children 8 and 9; the children are gone when killed. *)
Definition os_tree : OS :=
  {| os_now := fun _ => "12:00:00";
     os_Process := fun _ pid => if pid =? 7 then Ret tt else gone pid;
     os_children := fun _ _ => Ret [8; 9];
     os_kill := fun _ pid =>
       if pid =? 7 then Ret tt
       else Raise (NoSuchProcess "process no longer exists");
     os_signal := fun _ _ _ => Ret tt;
     os_Popen := fun _ command _ => no_spawn command;
     os_pids := fun _ => [1; 7; 30];
     os_proc_info := fun _ pid =>
       if pid =? 1 then Some {| attr_cmdline := Some ["/sbin/init"];
                                attr_name := Some "init" |}
       else if pid =? 7 then Some {| attr_cmdline := Some ["python3"; "bot.py"];
                                     attr_name := Some "Python3" |}
       else if pid =? 30 then Some {| attr_cmdline := None; attr_name := None |}
       else None;
     os_is_running := fun _ _ => Ret true;
     os_create_time := fun _ _ => Ret "11:59:00" |}.

Definition entry (pid : Z) (command : string) : Z * Info :=
  (pid, {| info_process := handle pid [] 0;
           info_cmd := command;
           info_type := "bash" |}).

Definition world (registry : Dict.t Info) : World :=
  {| state := {| processes := registry; logs := [] |}; history := [] |}.

Definition fresh : World := world [].

End Examples.

(** ** Vocabulary of the statements *)

(** The line [log_message] formats. *)
Definition log_line (timestamp level msg : string) : string :=
  "[" ++ timestamp ++ "] [" ++ level ++ "] " ++ msg.

(** The log after one more line went through [log_message]. *)
Definition logged (line : string) (log : list string) : list string :=
  let log' := (log ++ [line])%list in
  if (1000 <? length log')%nat then last_n 1000 log' else log'.

(** Whether a call of [kill_process_tree] made at history [h] gets past
    resolving the root and listing its descendants. *)
Definition root_resolved (os : OS) (h : list Event) (pid : Z) : bool :=
  match os_Process os h pid with Ret _ => true | Raise _ => false end.

Definition descendants_listed (os : OS) (h : list Event) (pid : Z) : bool :=
  match os_children os (h ++ [EvProcess pid]) pid with
  | Ret _ => true
  | Raise _ => false
  end.

(** The events a call of [kill_process_tree] can add after [EvProcess]. *)
Definition kill_tree_event (ev : Event) : Prop :=
  match ev with
  | EvChildren _ | EvKill _ | EvPrint _ => True
  | _ => False
  end.


(** The events of [kill_process_tree] calls and of log lines. *)
Definition tree_event (ev : Event) : Prop :=
  match ev with
  | EvProcess _ | EvChildren _ | EvKill _ | EvPrint _ => True
  | _ => False
  end.

(** The registry entries whose pid is not in [pids]. *)
Definition without (pids : list Z) (d : Dict.t Info) : Dict.t Info :=
  filter (fun kv => negb (existsb (Z.eqb (fst kv)) pids)) d.


(** The test of the second loop of [api_stop]. *)
Definition cmdline_contains (filename : string) (attrs : ProcAttrs) : bool :=
  PyStr.contains filename
    (PyStr.join " " (match attr_cmdline attrs with Some l => l | None => [] end)).

(** The line [api_ctrl] logs for one pid. *)
Definition ctrl_line (key : string) (pid : Z) (line : string) : Prop :=
  exists timestamp,
    line = log_line timestamp "SIGNAL"
             ("Sent Ctrl+" ++ key ++ " to process " ++ PyStr.of_int pid).


(** The invariant of the loops over [process_iter], entered in world [w0]
    with [acc0] killed so far; [test] is the test the loop body makes. *)
Definition scan_loop_inv (test : ProcAttrs -> bool) (w0 : World)
    (acc0 done acc : list Z) (w1 : World) : Prop :=
  exists phase,
    history w1 = (history w0 ++ phase)%list
    /\ processes (state w1) = processes (state w0)
    /\ (forall pid, In pid done -> exists r, In (EvProcInfo pid r) phase)
    /\ (forall pid attrs,
          In (EvProcInfo pid (Some attrs)) phase -> test attrs = true ->
          In (EvProcess pid) phase)
    /\ ~ In EvPids phase
    /\ exists more, acc = (acc0 ++ more)%list.

(** The history in which [execute_command_stream] calls [Popen]: the one
    after its first log line. *)
Definition history_at_spawn (os : OS) (command : string) (w : World)
  : list Event :=
  history (snd (log_message os ("Executing: " ++ command) "COMMAND" w)).

(** The chunk yielded for the (i+1)-th line the child writes. *)
Definition line_chunk (p : Popen) (i : nat) : string :=
  match stdout_readline p i with
  | Ret line => PyStr.rstrip line ++ PyStr.newline
  | Raise _ => ""
  end.

(** The text of the terminal marker, without line ends. *)
Definition marker_text (code : Z) : string :=
  "[Process completed with exit code: " ++ PyStr.of_int code ++ "]".

Definition chunks_of {G W} (r : list string * G * W) : list string :=
  fst (fst r).

Definition world_of {A} (r : Res A * World) : World := snd r.

Definition registry (w : World) : Dict.t Info := processes (state w).

(** ** More of the program

    The rest of the process-facing code of [bot.py]: the route
    [api_execute], the listing routes [api_processes] and [api_logs], the
    command [api_run_uploaded] builds, and the loop the server runs when it is
    interrupted. *)

Module PyText.

(** [s.lstrip()] *)
Fixpoint lstrip (s : string) : string :=
  match s with
  | EmptyString => EmptyString
  | String c rest => if PyStr.isspace c then lstrip rest else s
  end.

(** [s.strip()] *)
Definition strip (s : string) : string := PyStr.rstrip (lstrip s).

(** [s.startswith(prefix)] *)
Definition startswith (prefix s : string) : bool := String.prefix prefix s.

(** [s.endswith(suffix)] *)
Fixpoint endswith (suffix s : string) : bool :=
  String.eqb suffix s ||
  match s with
  | EmptyString => false
  | String _ rest => endswith suffix rest
  end.

(** [os.path.join(a, b)] on a POSIX system. *)
Definition path_join (a b : string) : string :=
  if startswith "/" b then b
  else if String.eqb a "" || endswith "/" a then a ++ b
  else a ++ "/" ++ b.

End PyText.

(** What [api_execute] answers with: the JSON error, or the stream. *)
Inductive ExecuteResponse : Type :=
| ExecuteError (error : string)
| ExecuteStream (g : Gen).

(** [/api/execute]; [current_dir] is [state.current_dir] when the stream is
    started. *)
Definition api_execute (command current_dir : string) : ExecuteResponse :=
  let cmd := PyText.strip command in
  if String.eqb cmd "" then ExecuteError "No command provided"
  else ExecuteStream (GenStart cmd current_dir).

Record RunResponse : Type := {
  run_success : bool;
  run_message : string;
  run_command : option string
}.

(** [/api/run_uploaded]; [path_exists] and [copy] stand for [os.path.exists]
    and [shutil.copy], [upload_dir] and [current_dir] for the two fields of
    [state].  The route has no [try]: what [copy] raises, it raises. *)
Definition api_run_uploaded (path_exists : string -> bool)
    (copy : string -> string -> Res unit)
    (upload_dir current_dir filename : string) : Res RunResponse :=
  let file_path := PyText.path_join upload_dir filename in
  if negb (path_exists file_path) then
    Ret {| run_success := false;
           run_message := "File not found";
           run_command := None |}
  else
    match copy file_path current_dir with
    | Raise e => Raise e
    | Ret _ =>
        let cmd := if PyText.endswith ".py" filename
                   then "python3 " ++ filename
                   else "bash " ++ filename in
        Ret {| run_success := true;
               run_message := "File ready to run: " ++ cmd;
               run_command := Some cmd |}
    end.

Section Service.

Variable os : OS.

(** [/api/processes] *)
Definition api_processes : M (list ProcView) := get_all_processes os.

(** [/api/logs] *)
Definition api_logs : M string :=
  st <- get_state ;;
  ret (PyStr.join PyStr.newline (logs st)).

(** The handler of [KeyboardInterrupt] around [app.run]. *)
Definition shutdown : M unit :=
  print (PyStr.newline ++ "Shutting down server...") ;;
  st <- get_state ;;
  for_each (Dict.keys (processes st)) tt
    (fun pid _ => kill_process_tree os pid ;; ret tt) ;;
  print "All processes terminated.".

End Service.

(** ** Vocabulary of the further statements *)

(** The pids [psutil.Process] was called on, in order. *)
Fixpoint process_calls (evs : list Event) : list Z :=
  match evs with
  | [] => []
  | EvProcess pid :: rest => pid :: process_calls rest
  | _ :: rest => process_calls rest
  end.

(** The signals [os.kill] was asked to send, in order. *)
Fixpoint signals_sent (evs : list Event) : list (Z * Signal) :=
  match evs with
  | [] => []
  | EvSignal pid sig :: rest => (pid, sig) :: signals_sent rest
  | _ :: rest => signals_sent rest
  end.

(** The pids [Process.kill] was called on, in order. *)
Fixpoint kills_sent (evs : list Event) : list Z :=
  match evs with
  | [] => []
  | EvKill pid :: rest => pid :: kills_sent rest
  | _ :: rest => kills_sent rest
  end.

(** The lines printed, in order. *)
Fixpoint printed (evs : list Event) : list string :=
  match evs with
  | [] => []
  | EvPrint line :: rest => line :: printed rest
  | _ :: rest => printed rest
  end.

(** Whether every character of a string is white space. *)
Fixpoint all_space (s : string) : bool :=
  match s with
  | EmptyString => true
  | String c rest => PyStr.isspace c && all_space rest
  end.

(** Whether a string is empty or ends with a character that is not white
    space. *)
Fixpoint no_trailing_space (s : string) : bool :=
  match s with
  | EmptyString => true
  | String c EmptyString => negb (PyStr.isspace c)
  | String _ rest => no_trailing_space rest
  end.

(** The entry [execute_command_stream] registers for a command. *)
Definition registered_info (p : Popen) (command : string) : Info :=
  {| info_process := p;
     info_cmd := command;
     info_type := if PyStr.contains "python" (PyStr.lower command)
                  then "python" else "bash" |}.

(** The signal [api_ctrl] sends for a key. *)
Definition ctrl_signal (key : string) : option Signal :=
  if String.eqb key "C" then Some SIGINT
  else if String.eqb key "Z" then Some SIGTSTP
  else None.

(** A computation keeps a property of the registry and the log. *)
Definition keeps {A} (I : Dict.t Info -> list string -> Prop) (m : M A) : Prop :=
  forall w, I (registry w) (logs (state w)) ->
            I (registry (snd (m w))) (logs (state (snd (m w)))).

Definition log_bounded (d : Dict.t Info) (log : list string) : Prop :=
  (length log <= 1000)%nat.

(** Every entry of the registry is an entry of [d0], unchanged. *)
Definition entries_of (d0 : Dict.t Info) (d : Dict.t Info) (log : list string)
  : Prop :=
  incl d d0.

(** The exception that makes a call of [kill_process_tree] at history [h]
    return false, if any: the one of resolving the root, or else the one of
    listing its descendants. *)
Definition first_failure (os : OS) (h : list Event) (pid : Z) : option Exn :=
  match os_Process os h pid with
  | Raise e => Some e
  | Ret _ =>
      match os_children os (h ++ [EvProcess pid]) pid with
      | Raise e => Some e
      | Ret _ => None
      end
  end.

(** The line [kill_process_tree] logs for an exception. *)
Definition kill_error_line (timestamp : string) (pid : Z) (e : Exn) : string :=
  log_line timestamp "ERROR"
    ("Error killing process " ++ PyStr.of_int pid ++ ": " ++ exn_str e).

Module MoreExamples.

(** [os.path.exists] and [shutil.copy] where only [/srv/uploads/job.py] and
    [/srv/uploads/python_notes.sh] exist. *)
Definition uploaded (path : string) : bool :=
  String.eqb path "/srv/uploads/job.py"
  || String.eqb path "/srv/uploads/python_notes.sh".

Definition copy_ok (src dst : string) : Res unit := Ret tt.

(** Signals reach pid 5 only. *)
Definition os_signal_5 : OS :=
  {| os_now := fun _ => "12:00:00";
     os_Process := fun _ pid => Examples.gone pid;
     os_children := fun _ _ => Ret [];
     os_kill := fun _ _ => Ret tt;
     os_signal := fun _ pid _ =>
       if pid =? 5 then Ret tt
       else Raise (Exception "[Errno 3] No such process");
     os_Popen := fun _ command _ => Examples.no_spawn command;
     os_pids := fun _ => [];
     os_proc_info := fun _ _ => None;
     os_is_running := fun _ _ => Ret true;
     os_create_time := fun _ _ => Ret "11:59:00" |}.

End MoreExamples.

(** ** Dictionaries *)

Lemma mem_true_iff {V} (k : Z) (d : Dict.t V) :
  Dict.mem k d = true <-> In k (Dict.keys d).
Proof.
  unfold Dict.mem. rewrite existsb_exists. split.
  - intros [x [Hin Heq]]. apply Z.eqb_eq in Heq. now subst.
  - intros Hin. exists k. split; [assumption | apply Z.eqb_refl].
Qed.

Lemma mem_false_iff {V} (k : Z) (d : Dict.t V) :
  Dict.mem k d = false <-> ~ In k (Dict.keys d).
Proof.
  rewrite <- mem_true_iff. destruct (Dict.mem k d); split; intros; congruence.
Qed.

Lemma keys_remove {V} (k : Z) (d : Dict.t V) :
  Dict.keys (Dict.remove k d) = filter (fun k' => negb (k =? k')) (Dict.keys d).
Proof.
  unfold Dict.keys, Dict.remove.
  induction d as [|[k' v] d IH]; simpl; [reflexivity|].
  destruct (k =? k'); simpl; now rewrite IH.
Qed.

Lemma in_keys_remove {V} (k k' : Z) (d : Dict.t V) :
  In k' (Dict.keys (Dict.remove k d)) <-> In k' (Dict.keys d) /\ k' <> k.
Proof.
  rewrite keys_remove, filter_In, negb_true_iff, Z.eqb_neq.
  intuition congruence.
Qed.

Lemma mem_remove {V} (k : Z) (d : Dict.t V) :
  Dict.mem k (Dict.remove k d) = false.
Proof. apply mem_false_iff. rewrite in_keys_remove. tauto. Qed.

Lemma remove_absent {V} (k : Z) (d : Dict.t V) :
  Dict.mem k d = false -> Dict.remove k d = d.
Proof.
  rewrite mem_false_iff. unfold Dict.remove, Dict.keys.
  induction d as [|[k' v] d IH]; simpl; intros Hnot; [reflexivity|].
  destruct (Z.eqb_spec k k') as [->|_]; [tauto|].
  simpl. f_equal. apply IH. tauto.
Qed.

Lemma wf_remove {V} (k : Z) (d : Dict.t V) :
  Dict.wf d -> Dict.wf (Dict.remove k d).
Proof.
  unfold Dict.wf. rewrite keys_remove. apply NoDup_filter.
Qed.

Lemma keys_set {V} (k : Z) (v : V) (d : Dict.t V) :
  Dict.keys (Dict.set k v d) =
  if Dict.mem k d then Dict.keys d else (Dict.keys d ++ [k])%list.
Proof.
  unfold Dict.mem, Dict.keys.
  induction d as [|[k' v'] d IH]; simpl; [reflexivity|].
  destruct (k =? k'); simpl; [reflexivity|].
  rewrite IH. now destruct (existsb (Z.eqb k) (map fst d)).
Qed.

Lemma wf_set {V} (k : Z) (v : V) (d : Dict.t V) :
  Dict.wf d -> Dict.wf (Dict.set k v d).
Proof.
  unfold Dict.wf. rewrite keys_set. intros Hwf.
  destruct (Dict.mem k d) eqn:Hmem; [assumption|].
  apply mem_false_iff in Hmem.
  apply NoDup_app; [assumption | repeat constructor; simpl; tauto |].
  intros x Hx [<-|[]]. contradiction.
Qed.

Lemma get_set_same {V} (k : Z) (v : V) (d : Dict.t V) :
  Dict.get k (Dict.set k v d) = Some v.
Proof.
  induction d as [|[k' v'] d IH]; simpl.
  - now rewrite Z.eqb_refl.
  - destruct (k =? k') eqn:E; simpl; rewrite E; [reflexivity | exact IH].
Qed.

Lemma get_set_other {V} (k k0 : Z) (v : V) (d : Dict.t V) :
  k0 <> k -> Dict.get k0 (Dict.set k v d) = Dict.get k0 d.
Proof.
  intros Hne. induction d as [|[k' v'] d IH]; simpl.
  - destruct (Z.eqb_spec k0 k); [contradiction | reflexivity].
  - destruct (Z.eqb_spec k k') as [->|_]; simpl.
    + destruct (Z.eqb_spec k0 k'); [contradiction | reflexivity].
    + now rewrite IH.
Qed.

(** ** [log_message] *)

Lemma log_message_eq (os : OS) (msg level : string) (w : World) :
  log_message os msg level w =
  let line := log_line (os_now os (history w)) level msg in
  (Ret line,
   {| state := {| processes := registry w; logs := logged line (logs (state w)) |};
      history := history w ++ [EvPrint line] |}).
Proof.
  unfold log_message, logged, log_line, registry, bind, datetime_now, get_state,
    set_logs, print, call, ret; simpl.
  destruct (1000 <? _)%nat; reflexivity.
Qed.

Lemma length_logged (line : string) (log : list string) :
  (length (logged line log) <= 1000)%nat.
Proof.
  unfold logged, last_n.
  destruct (Nat.ltb_spec 1000 (length (log ++ [line]))) as [Hlt|Hle].
  - rewrite length_skipn. lia.
  - exact Hle.
Qed.

Lemma logged_suffix (line : string) (log : list string) :
  exists dropped, (log ++ [line] = dropped ++ logged line log)%list.
Proof.
  unfold logged, last_n.
  destruct (1000 <? _)%nat.
  - eexists. symmetry. apply firstn_skipn.
  - now exists [].
Qed.

(** C8.  Every call of [log_message] appends its formatted line; when the
    log held fewer than 1000 lines it grows by that one line, otherwise lines
    are dropped from the front and exactly the 1000 most recent remain.  In
    both cases the new log is the end of the old log followed by the new
    line, with nothing reordered or changed, and holds at most 1000 lines. *)
Theorem log_message_bounded (os : OS) (msg level : string) (w : World) :
  let line := log_line (os_now os (history w)) level msg in
  let before := logs (state w) in
  let after := logs (state (world_of (log_message os msg level w))) in
  (((length before < 1000)%nat /\ after = (before ++ [line])%list)
   \/ ((1000 <= length before)%nat /\ length after = 1000%nat
       /\ after = (skipn (length before - 999) before ++ [line])%list))
  /\ (length after <= 1000)%nat
  /\ (exists dropped, (before ++ [line])%list = (dropped ++ after)%list)
  /\ registry (world_of (log_message os msg level w)) = registry w.
Proof.
  intros line before after. subst after.
  rewrite log_message_eq. fold line. simpl. fold before.
  split; [|split; [apply length_logged | split; [apply logged_suffix | reflexivity]]].
  unfold logged, last_n.
  destruct (Nat.ltb_spec 1000 (length (before ++ [line]))) as [Hlt|Hle];
    rewrite length_app in *; simpl in *.
  - right. split; [lia|]. split.
    + rewrite length_skipn, length_app. simpl. lia.
    + rewrite skipn_app.
      replace (length before + 1 - 1000)%nat with (length before - 999)%nat by lia.
      replace (length before - 999 - length before)%nat with 0%nat by lia.
      reflexivity.
  - left. split; [lia | reflexivity].
Qed.

(** ** [kill_process_tree] *)

Lemma world_eta (w : World) :
  {| state := state w; history := history w |} = w.
Proof. now destruct w. Qed.

Lemma bind_eq {A B} (m : M A) (k : A -> M B) (w : World) :
  bind m k w =
  match m w with
  | (Ret a, w') => k a w'
  | (Raise e, w') => (Raise e, w')
  end.
Proof. reflexivity. Qed.

Lemma try_except_eq {A} (m : M A) (handler : Exn -> M A) (w : World) :
  try_except m handler w =
  match m w with
  | (Ret a, w') => (Ret a, w')
  | (Raise e, w') => handler e w'
  end.
Proof. reflexivity. Qed.

Lemma kill_children_eq (os : OS) (children : list Z) (w : World) :
  for_each children tt
    (fun child _ => try_except (Process_kill os child) (fun _ => ret tt)) w
  = (Ret tt, {| state := state w;
                history := history w ++ map EvKill children |}).
Proof.
  revert w. induction children as [|c cs IH]; intros w; simpl.
  - unfold ret. now rewrite app_nil_r, world_eta.
  - rewrite bind_eq, try_except_eq. unfold Process_kill at 1. unfold call at 1.
    destruct (os_kill os (history w) c) as [[]|e]; unfold ret at 1; rewrite IH; simpl;
      now rewrite <- app_assoc.
Qed.

Lemma Forall_kill_events (l : list Z) (tl : list Event) :
  Forall kill_tree_event tl -> Forall kill_tree_event (map EvKill l ++ tl).
Proof.
  intros Htl. apply Forall_app. split; [|assumption].
  apply Forall_forall. intros ev Hin. apply in_map_iff in Hin.
  destruct Hin as [x [<- _]]. exact I.
Qed.

Lemma kill_process_tree_spec (os : OS) (pid : Z) (w : World) :
  exists evs log',
    kill_process_tree os pid w =
    (Ret (root_resolved os (history w) pid
          && descendants_listed os (history w) pid),
     {| state := {| processes := registry w; logs := log' |};
        history := history w ++ EvProcess pid :: evs |})
    /\ Forall kill_tree_event evs.
Proof.
  destruct w as [[d l] h].
  unfold kill_process_tree, root_resolved, descendants_listed, registry.
  rewrite try_except_eq, bind_eq. unfold psutil_Process at 1. unfold call at 1.
  cbn [history state processes logs].
  destruct (os_Process os h pid) as [[]|e].
  - rewrite bind_eq. unfold Process_children at 1. unfold call at 1.
    cbn [history state processes logs].
    destruct (os_children os (h ++ [EvProcess pid]) pid) as [cs|e].
    + rewrite bind_eq, kill_children_eq, bind_eq, try_except_eq.
      unfold Process_kill, call, ret. cbn [history state processes logs].
      exists (EvChildren pid :: map EvKill cs ++ [EvKill pid]), l.
      split.
      * destruct (os_kill os _ pid); cbn;
          repeat (rewrite <- app_assoc; cbn); reflexivity.
      * constructor; [exact I|]. apply Forall_kill_events.
        repeat constructor.
    + destruct e; try rewrite bind_eq, log_message_eq; unfold ret; cbn;
        eexists (EvChildren pid :: _), _;
        (split; [repeat (rewrite <- app_assoc; cbn); reflexivity
                | repeat constructor]).
  - destruct e; try rewrite bind_eq, log_message_eq; unfold ret; cbn;
      eexists _, _;
      (split; [repeat (rewrite <- app_assoc; cbn); reflexivity
              | repeat constructor]).
Qed.

(** C3, as the code has it.  [kill_process_tree] never raises.  It returns
    false exactly when resolving the root process raises or listing its
    descendants raises; once both have succeeded it returns true whatever the
    kill calls do.  When the exception that made it return false is not
    [NoSuchProcess], it logs one line at ERROR level naming the pid and the
    exception; otherwise it logs nothing.  The registry is left as it was. *)
Theorem kill_process_tree_result (os : OS) (pid : Z) (w : World) :
  exists w',
    kill_process_tree os pid w =
    (Ret (root_resolved os (history w) pid
          && descendants_listed os (history w) pid), w')
    /\ registry w' = registry w
    /\ match first_failure os (history w) pid with
       | None | Some (NoSuchProcess _) => logs (state w') = logs (state w)
       | Some e =>
           exists timestamp,
             logs (state w')
             = logged (log_line timestamp "ERROR"
                         ("Error killing process " ++ PyStr.of_int pid ++ ": "
                          ++ exn_str e))
                 (logs (state w))
       end.
Proof.
  destruct w as [[d l] h].
  unfold kill_process_tree, root_resolved, descendants_listed, first_failure,
    registry.
  rewrite try_except_eq, bind_eq. unfold psutil_Process at 1. unfold call at 1.
  cbn [history state processes logs].
  destruct (os_Process os h pid) as [[]|e].
  - rewrite bind_eq. unfold Process_children at 1. unfold call at 1.
    cbn [history state processes logs].
    destruct (os_children os (h ++ [EvProcess pid]) pid) as [cs|e].
    + rewrite bind_eq, kill_children_eq, bind_eq, try_except_eq.
      unfold Process_kill, call, ret. cbn [history state processes logs].
      destruct (os_kill os _ pid); eexists;
        (split; [reflexivity|]); split; reflexivity.
    + destruct e; try rewrite bind_eq, log_message_eq; unfold ret;
        cbv beta iota zeta; eexists; (split; [reflexivity|]);
        cbn [state processes logs]; (split; [reflexivity|]);
        try reflexivity; eexists; reflexivity.
  - destruct e; try rewrite bind_eq, log_message_eq; unfold ret;
      cbv beta iota zeta; eexists; (split; [reflexivity|]);
      cbn [state processes logs]; (split; [reflexivity|]);
      try reflexivity; eexists; reflexivity.
Qed.

(** C3, as stated, fails: the root process resolves, listing its descendants
    raises, and [kill_process_tree] returns false, both when the exception is
    [NoSuchProcess] and when it is another one. *)
Lemma kill_process_tree_false_after_resolving :
  ~ (forall os pid w w',
        kill_process_tree os pid w = (Ret false, w') ->
        root_resolved os (history w) pid = false)
  /\ root_resolved Examples.os_denied [] 5 = true
  /\ fst (kill_process_tree Examples.os_denied 5 Examples.fresh) = Ret false
  /\ root_resolved Examples.os_vanishing [] 5 = true
  /\ fst (kill_process_tree Examples.os_vanishing 5 Examples.fresh) = Ret false.
Proof.
  split; [|repeat split].
  intros H.
  specialize (H Examples.os_vanishing 5 Examples.fresh _ eq_refl).
  discriminate H.
Qed.

(** ** Registry updates *)

Lemma processes_delitem_present (pid : Z) (w : World) :
  Dict.mem pid (registry w) = true ->
  processes_delitem pid w =
  (Ret tt, {| state := {| processes := Dict.remove pid (registry w);
                          logs := logs (state w) |};
              history := history w |}).
Proof.
  intros Hmem. unfold processes_delitem, registry in *.
  rewrite bind_eq. unfold get_state. now rewrite Hmem.
Qed.

Lemma processes_delitem_absent (pid : Z) (w : World) :
  Dict.mem pid (registry w) = false ->
  processes_delitem pid w = (Raise (KeyError pid), w).
Proof.
  intros Hmem. unfold processes_delitem, registry in *.
  rewrite bind_eq. unfold get_state. now rewrite Hmem.
Qed.

(** C7, as the code has it.  Storing an entry under a pid that is already
    in [state.processes] succeeds: the new entry takes the place of the old
    one, the keys and every other entry stay as they were. *)
Theorem processes_setitem_replaces (pid : Z) (info : Info) (w : World)
    (Hpresent : Dict.mem pid (registry w) = true) :
  exists w',
    processes_setitem pid info w = (Ret tt, w')
    /\ Dict.get pid (registry w') = Some info
    /\ Dict.keys (registry w') = Dict.keys (registry w)
    /\ (forall k, k <> pid -> Dict.get k (registry w') = Dict.get k (registry w))
    /\ logs (state w') = logs (state w)
    /\ history w' = history w.
Proof.
  eexists. split; [reflexivity|]. unfold registry in *. cbn [state processes logs history].
  split; [apply get_set_same|].
  split; [rewrite keys_set; now rewrite Hpresent|].
  split; [intros k Hk; now apply get_set_other | split; reflexivity].
Qed.

Lemma processes_setitem_replaces_witness :
  exists w',
    processes_setitem 5 (snd (Examples.entry 5 "echo hello"))
      (Examples.world [Examples.entry 5 "sleep 100"]) = (Ret tt, w')
    /\ Dict.get 5 (registry w') = Some (snd (Examples.entry 5 "echo hello")).
Proof.
  destruct (processes_setitem_replaces 5 (snd (Examples.entry 5 "echo hello"))
              (Examples.world [Examples.entry 5 "sleep 100"]) eq_refl)
    as [w' [Hrun [Hget _]]].
  exists w'. split; assumption.
Defined.

(** C7, as stated, fails: with pid 4242 already registered for [sleep 100],
    a command spawned under the same pid is registered without any error;
    the first chunk is its output line and the entry now holds the new
    command. *)
Lemma register_present_pid_overwrites :
  let w := Examples.world [Examples.entry 4242 "sleep 100"] in
  let r := next Examples.os_sh (GenStart "echo hello" "/home") w in
  Dict.mem 4242 (registry w) = true
  /\ option_map info_cmd (Dict.get 4242 (registry w)) = Some "sleep 100"
  /\ (exists p, fst r = Ret (Some ("hello" ++ PyStr.newline), GenLine p 1))
  /\ option_map info_cmd (Dict.get 4242 (registry (world_of r)))
     = Some "echo hello"
  /\ fst (processes_setitem 4242 (snd (Examples.entry 4242 "echo hello")) w)
     = Ret tt.
Proof.
  cbv zeta. split; [reflexivity|]. split; [reflexivity|].
  split; [eexists; reflexivity|]. split; reflexivity.
Qed.

(** ** [api_stop_pid] *)

(** C5, as the code has it.  [api_stop_pid] calls [kill_process_tree] on the
    pid and never raises.  When that call returns true the pid is absent from
    the registry afterwards, whether or not it was a key before, and the
    answer reports success; when it returns false the registry is left
    unchanged and the answer reports failure. *)
Theorem api_stop_pid_result (os : OS) (pid : Z) (w : World) :
  exists ok w1 resp w',
    kill_process_tree os pid w = (Ret ok, w1)
    /\ api_stop_pid os pid w = (Ret resp, w')
    /\ success resp = ok
    /\ registry w' = (if ok then Dict.remove pid (registry w) else registry w)
    /\ (if ok then Dict.mem pid (registry w') = false else True)
    /\ history w' = history w1
    /\ logs (state w') = logs (state w1).
Proof.
  destruct (kill_process_tree_spec os pid w) as [evs [log' [Hkill _]]].
  unfold api_stop_pid. rewrite try_except_eq, bind_eq, Hkill.
  destruct (root_resolved os (history w) pid
            && descendants_listed os (history w) pid).
  - rewrite bind_eq. unfold get_state at 1. cbn [state processes].
    rewrite bind_eq.
    destruct (Dict.mem pid (registry w)) eqn:Hmem.
    + rewrite processes_delitem_present by exact Hmem.
      do 4 eexists. split; [reflexivity|]. split; [reflexivity|]. cbn.
      repeat split. apply mem_remove.
    + do 4 eexists. split; [reflexivity|]. split; [reflexivity|]. cbn.
      rewrite remove_absent by exact Hmem. repeat split. exact Hmem.
  - do 4 eexists. split; [reflexivity|]. split; [reflexivity|]. cbn.
    repeat split.
Qed.

(** C5, as stated, fails: pid 5 is registered but its process no longer
    exists, so [kill_process_tree] returns false and the entry stays. *)
Lemma api_stop_pid_keeps_dead_entry :
  ~ (forall os pid w,
        Dict.mem pid (registry (world_of (api_stop_pid os pid w))) = false)
  /\ (let r := api_stop_pid Examples.os_empty 5
                 (Examples.world [Examples.entry 5 "sleep 100"]) in
      option_map success (match fst r with Ret a => Some a | Raise _ => None end)
      = Some false
      /\ Dict.keys (registry (world_of r)) = [5]).
Proof.
  split; [|split; reflexivity].
  intros H.
  specialize (H Examples.os_empty 5 (Examples.world [Examples.entry 5 "sleep 100"])).
  discriminate H.
Qed.

(** ** [execute_command_stream] *)

Lemma read_loop_line (p : Popen) (n : nat) (w : World) (line : string) :
  stdout_readline p n = Ret line -> line <> "" ->
  read_loop p n w =
  (Ret (Some (line_chunk p n), GenLine p (S n)),
   {| state := state w; history := history w ++ [EvReadline (popen_pid p)] |}).
Proof.
  intros Hread Hline. unfold read_loop, line_chunk.
  rewrite bind_eq. unfold readline at 1. unfold call at 1. rewrite Hread.
  destruct (String.eqb_spec line ""); [contradiction | reflexivity].
Qed.

Lemma read_loop_eof (p : Popen) (n : nat) (w : World) :
  stdout_readline p n = Ret "" ->
  read_loop p n w =
  (Ret (Some (exit_marker (returncode p)), GenMarker p),
   {| state := {| processes := Dict.remove (popen_pid p) (registry w);
                  logs := logs (state w) |};
      history := history w ++ [EvReadline (popen_pid p); EvWait (popen_pid p)] |}).
Proof.
  intros Hread. destruct w as [[d l] h]. unfold read_loop, registry.
  rewrite bind_eq. unfold readline at 1. unfold call at 1. rewrite Hread.
  cbn [String.eqb history state].
  rewrite bind_eq. unfold Popen_wait at 1. unfold call at 1.
  rewrite bind_eq. unfold get_state at 1. cbn [history state processes].
  rewrite bind_eq. rewrite <- app_assoc. cbn [app].
  destruct (Dict.mem (popen_pid p) d) eqn:Hmem.
  - rewrite processes_delitem_present by exact Hmem. reflexivity.
  - unfold ret. now rewrite remove_absent by exact Hmem.
Qed.

Lemma read_loop_raise (p : Popen) (n : nat) (w : World) (e : Exn) :
  stdout_readline p n = Raise e ->
  read_loop p n w =
  (Raise e,
   {| state := state w; history := history w ++ [EvReadline (popen_pid p)] |}).
Proof.
  intros Hread. unfold read_loop.
  rewrite bind_eq. unfold readline at 1. unfold call at 1. now rewrite Hread.
Qed.

(** What resuming the generator in its read loop can yield. *)
Lemma read_loop_cases (p : Popen) (n : nat) (w : World) :
  (exists e w', except_yield_error (read_loop p n) w
                = (Ret (Some (error_line e), GenError), w'))
  \/ (exists w', except_yield_error (read_loop p n) w
                 = (Ret (Some (line_chunk p n), GenLine p (S n)), w'))
  \/ (exists w', except_yield_error (read_loop p n) w
                 = (Ret (Some (exit_marker (returncode p)), GenMarker p), w')
                 /\ Dict.mem (popen_pid p) (registry w') = false).
Proof.
  unfold except_yield_error. rewrite try_except_eq.
  destruct (stdout_readline p n) as [line|e] eqn:Hread.
  - destruct (String.eqb_spec line "") as [->|Hline].
    + right. right. rewrite read_loop_eof by exact Hread.
      eexists. split; [reflexivity | apply mem_remove].
    + right. left. rewrite (read_loop_line p n w line) by assumption.
      eexists. reflexivity.
  - left. rewrite (read_loop_raise p n w e) by exact Hread.
    do 2 eexists. reflexivity.
Qed.

Lemma next_start (os : OS) (command cwd : string) (w : World) :
  next os (GenStart command cwd) w =
  except_yield_error (spawn os command cwd)
    (world_of (log_message os ("Executing: " ++ command) "COMMAND" w)).
Proof.
  cbn [next]. rewrite bind_eq.
  destruct (log_message os ("Executing: " ++ command) "COMMAND" w) as [r w1] eqn:E.
  rewrite log_message_eq in E. cbv zeta in E.
  injection E as <- <-. reflexivity.
Qed.

Lemma spawn_ok (os : OS) (command cwd : string) (w : World) (p : Popen) :
  os_Popen os (history w) command cwd = Ret p ->
  exists w1, spawn os command cwd w = read_loop p 0 w1.
Proof.
  intros Hspawn. unfold spawn.
  rewrite bind_eq. unfold subprocess_Popen at 1. unfold call at 1.
  rewrite Hspawn. rewrite bind_eq.
  unfold processes_setitem at 1. rewrite bind_eq.
  unfold get_state at 1. unfold set_processes at 1.
  eexists. reflexivity.
Qed.

Lemma spawn_raise (os : OS) (command cwd : string) (w : World) (e : Exn) :
  os_Popen os (history w) command cwd = Raise e ->
  spawn os command cwd w =
  (Raise e, {| state := state w;
               history := history w ++ [EvPopen command cwd] |}).
Proof.
  intros Hspawn. unfold spawn.
  rewrite bind_eq. unfold subprocess_Popen at 1. unfold call at 1.
  now rewrite Hspawn.
Qed.

(** [next] never raises: every exception of the body is turned into the
    error chunk. *)
Lemma next_returns (os : OS) (g : Gen) (w : World) :
  exists y w', next os g w = (Ret y, w').
Proof.
  assert (Hloop : forall p n w0,
             exists y w', except_yield_error (read_loop p n) w0 = (Ret y, w')).
  { intros p n w0.
    destruct (read_loop_cases p n w0) as [[e [w1 H]] | [[w1 H] | [w1 [H _]]]];
      rewrite H; do 2 eexists; reflexivity. }
  destruct g as [command cwd | p n | p | | ]; try (do 2 eexists; reflexivity).
  - rewrite next_start.
    destruct (os_Popen os
                (history (world_of (log_message os ("Executing: " ++ command)
                                      "COMMAND" w))) command cwd)
      as [p|e] eqn:Hspawn.
    + destruct (spawn_ok os command cwd _ p Hspawn) as [w1 Hw1].
      destruct (Hloop p 0%nat w1) as [y [w' H]]. exists y, w'.
      unfold except_yield_error in *. rewrite try_except_eq in *.
      now rewrite Hw1.
    + unfold except_yield_error. rewrite try_except_eq.
      rewrite (spawn_raise os command cwd _ e Hspawn).
      do 2 eexists. reflexivity.
  - apply Hloop.
Qed.

(** Whenever the generator, resumed, goes on in its read loop and the child
    writes [k] more lines before end of file, draining it gives their chunks
    and the terminal chunk. *)
Lemma drain_read_loop (os : OS) (p : Popen) :
  forall (k n fuel : nat) (g : Gen) (w w0 : World),
    next os g w = except_yield_error (read_loop p n) w0 ->
    (forall i, (n <= i < n + k)%nat ->
               exists line, stdout_readline p i = Ret line /\ line <> "") ->
    stdout_readline p (n + k) = Ret "" ->
    (k + 2 <= fuel)%nat ->
    exists w',
      drain os fuel g w =
      ((map (line_chunk p) (seq n k) ++ [exit_marker (returncode p)])%list,
       GenDone, w')
      /\ Dict.mem (popen_pid p) (registry w') = false.
Proof.
  induction k as [|k IH]; intros n fuel g w w0 Hnext Hlines Heof Hfuel.
  - destruct fuel as [|[|fuel]]; try lia.
    rewrite Nat.add_0_r in Heof.
    cbn [drain seq map app]. rewrite Hnext.
    unfold except_yield_error. rewrite try_except_eq.
    rewrite read_loop_eof by exact Heof.
    cbn [next]. unfold ret.
    eexists. split; [reflexivity | apply mem_remove].
  - destruct fuel as [|fuel]; try lia.
    destruct (Hlines n ltac:(lia)) as [line [Hread Hline]].
    cbn [drain seq map app]. rewrite Hnext.
    unfold except_yield_error at 1. rewrite try_except_eq.
    rewrite (read_loop_line p n w0 line) by assumption.
    edestruct (IH (S n) fuel (GenLine p (S n))) as [w' [Hdrain Hmem]].
    + reflexivity.
    + intros i Hi. apply Hlines. lia.
    + now replace (S n + k)%nat with (n + S k)%nat by lia.
    + lia.
    + rewrite Hdrain. eexists. split; [reflexivity | exact Hmem].
Qed.

Lemma string_append_assoc (s1 s2 s3 : string) :
  (s1 ++ s2) ++ s3 = s1 ++ (s2 ++ s3).
Proof. induction s1 as [|c s1 IH]; simpl; [reflexivity | now rewrite IH]. Qed.

Lemma last_snoc {A} (l : list A) (x d : A) : last (l ++ [x]) d = x.
Proof. apply last_last. Qed.

(** C1, as the code has it.  When [Popen] returns a process whose output is
    [k] lines followed by end of file, none of the reads raising, the stream
    is the [k] line chunks followed by one last chunk: a newline, the text
    [[Process completed with exit code: N]] with N the return code of the
    process, and a newline.  The generator then returns. *)
Theorem execute_command_stream_last_chunk
    (os : OS) (command cwd : string) (w : World) (p : Popen) (k fuel : nat)
    (Hspawn : os_Popen os (history_at_spawn os command w) command cwd = Ret p)
    (Hlines : forall i, (i < k)%nat ->
                        exists line, stdout_readline p i = Ret line /\ line <> "")
    (Heof : stdout_readline p k = Ret "")
    (Hfuel : (k + 2 <= fuel)%nat) :
  exists w',
    execute_command_stream os fuel command cwd w =
    ((map (line_chunk p) (seq 0 k) ++ [exit_marker (returncode p)])%list,
     GenDone, w')
    /\ last (chunks_of (execute_command_stream os fuel command cwd w)) ""
       = PyStr.newline ++ marker_text (returncode p) ++ PyStr.newline.
Proof.
  unfold history_at_spawn in Hspawn.
  destruct (spawn_ok os command cwd _ p Hspawn) as [w1 Hw1].
  destruct (drain_read_loop os p k 0 fuel (GenStart command cwd) w w1)
    as [w' [Hdrain _]].
  - rewrite next_start. unfold except_yield_error, world_of.
    rewrite !try_except_eq. now rewrite Hw1.
  - intros i Hi. apply Hlines. lia.
  - exact Heof.
  - exact Hfuel.
  - unfold execute_command_stream. rewrite Hdrain.
    exists w'. split; [reflexivity|].
    unfold chunks_of. cbn [fst]. rewrite last_snoc.
    unfold exit_marker, marker_text. now rewrite !string_append_assoc.
Qed.

Lemma execute_command_stream_last_chunk_witness :
  exists w',
    execute_command_stream Examples.os_sh 3 "echo hello" "/home" Examples.fresh =
    (["hello" ++ PyStr.newline; exit_marker 0], GenDone, w').
Proof.
  destruct (execute_command_stream_last_chunk Examples.os_sh "echo hello" "/home"
              Examples.fresh (Examples.handle 4242 ["hello" ++ PyStr.newline] 0)
              1 3) as [w' [Hrun _]].
  - reflexivity.
  - intros i Hi. destruct i as [|i]; [|lia].
    eexists. split; [reflexivity | discriminate].
  - reflexivity.
  - lia.
  - exists w'. exact Hrun.
Defined.

(** C1, as stated, fails in two ways.  The last chunk of [echo hello] is
    not the marker text alone, nor the marker text as one line: it starts
    with a newline of its own.  And a command that was spawned but whose
    output cannot be decoded ends its stream with the error line, not with
    the marker. *)
Lemma last_chunk_not_bare_marker :
  (let r := execute_command_stream Examples.os_sh 5 "echo hello" "/home"
              Examples.fresh in
   chunks_of r = ["hello" ++ PyStr.newline;
                  PyStr.newline ++ marker_text 0 ++ PyStr.newline]
   /\ last (chunks_of r) "" <> marker_text 0
   /\ last (chunks_of r) "" <> marker_text 0 ++ PyStr.newline)
  /\ (let r := execute_command_stream Examples.os_binary 5 "cat /bin/ls" "/home"
                 Examples.fresh in
      (exists p, os_Popen Examples.os_binary
                   (history_at_spawn Examples.os_binary "cat /bin/ls" Examples.fresh)
                   "cat /bin/ls" "/home" = Ret p)
      /\ snd (fst r) = GenDone
      /\ chunks_of r =
         [error_line (Exception "'utf-8' codec can't decode byte 0x80 in position 24: invalid start byte")]).
Proof.
  split.
  - cbv zeta. split; [reflexivity|].
    split; intros H; vm_compute in H; discriminate H.
  - cbv zeta. split; [eexists; reflexivity|]. split; reflexivity.
Qed.

(** C2, as the code has it.  When [Popen] raises, the first resumption
    yields the chunk [Error executing command: <str(e)>] ended by a newline,
    the second one returns, so the stream is that one chunk; the registry is
    never changed on the way. *)
Theorem spawn_failure_single_error_chunk
    (os : OS) (command cwd : string) (w : World) (e : Exn) (fuel : nat)
    (Hspawn : os_Popen os (history_at_spawn os command w) command cwd = Raise e)
    (Hfuel : (2 <= fuel)%nat) :
  exists w',
    next os (GenStart command cwd) w = (Ret (Some (error_line e), GenError), w')
    /\ registry w' = registry w
    /\ next os GenError w' = (Ret (None, GenDone), w')
    /\ execute_command_stream os fuel command cwd w
       = ([error_line e], GenDone, w')
    /\ PyStr.contains "Error executing command:" (error_line e) = true.
Proof.
  unfold history_at_spawn in Hspawn.
  assert (Hnext : exists w',
             next os (GenStart command cwd) w
             = (Ret (Some (error_line e), GenError), w')
             /\ registry w' = registry w).
  { rewrite next_start. unfold except_yield_error, world_of.
    rewrite try_except_eq. rewrite (spawn_raise os command cwd _ e Hspawn).
    eexists. split; [reflexivity|].
    rewrite log_message_eq. reflexivity. }
  destruct Hnext as [w' [Hnext Hreg]].
  exists w'. split; [exact Hnext|]. split; [exact Hreg|].
  split; [reflexivity|]. split.
  - destruct fuel as [|[|fuel]]; try lia.
    unfold execute_command_stream. cbn [drain]. rewrite Hnext. reflexivity.
  - reflexivity.
Qed.

Lemma spawn_failure_single_error_chunk_witness :
  exists w',
    execute_command_stream Examples.os_empty 2 "bogus_nonexistent_binary" "/home"
      Examples.fresh
    = ([error_line (Exception "[Errno 13] Permission denied: '/bin/sh'")],
       GenDone, w')
    /\ registry w' = [].
Proof.
  destruct (spawn_failure_single_error_chunk Examples.os_empty
              "bogus_nonexistent_binary" "/home" Examples.fresh
              (Exception "[Errno 13] Permission denied: '/bin/sh'") 2)
    as [w' [_ [Hreg [_ [Hrun _]]]]].
  - reflexivity.
  - lia.
  - exists w'. split; [exact Hrun | exact Hreg].
Defined.

(** C2, as stated, fails on its example.  The command is handed to a shell
    ([shell=True]), so what is spawned is the shell: where the shell starts,
    [bogus_nonexistent_binary] does not make [Popen] raise.  The stream is
    then the shell's own complaint followed by the exit-code chunk, no chunk
    contains [Error executing command:], and the pid is in the registry
    while the stream is suspended at its first chunk. *)
Lemma bogus_command_spawns_a_shell :
  let g := GenStart "bogus_nonexistent_binary" "/home" in
  let r := execute_command_stream Examples.os_sh 5 "bogus_nonexistent_binary"
             "/home" Examples.fresh in
  chunks_of r =
    ["/bin/sh: 1: bogus_nonexistent_binary: not found" ++ PyStr.newline;
     exit_marker 127]
  /\ forallb (fun c => negb (PyStr.contains "Error executing command:" c))
       (chunks_of r) = true
  /\ Dict.keys (registry (world_of (next Examples.os_sh g Examples.fresh)))
     = [4243].
Proof. cbv zeta. split; [|split]; reflexivity. Qed.

(** ** Loops *)

(** A loop invariant [P done acc w] that holds before the loop and is kept
    by every iteration that returns holds after the loop. *)
Lemma for_each_rule {A B} (P : list A -> B -> World -> Prop)
    (l : list A) (body : A -> B -> M B) :
  (forall done x rest acc w,
      l = (done ++ x :: rest)%list -> P done acc w ->
      exists acc' w', body x acc w = (Ret acc', w') /\ P (done ++ [x])%list acc' w') ->
  forall acc w,
    P [] acc w ->
    exists acc' w', for_each l acc body w = (Ret acc', w') /\ P l acc' w'.
Proof.
  intros Hbody.
  assert (Hgen : forall rest done acc w,
             l = (done ++ rest)%list -> P done acc w ->
             exists acc' w', for_each rest acc body w = (Ret acc', w')
                             /\ P l acc' w').
  { induction rest as [|x rest IH]; intros done acc w Hl HP.
    - rewrite app_nil_r in Hl. subst done. do 2 eexists. split; [reflexivity|exact HP].
    - destruct (Hbody done x rest acc w Hl HP) as [acc1 [w1 [Hrun HP1]]].
      cbn [for_each]. rewrite bind_eq, Hrun.
      apply (IH (done ++ [x])%list); [|exact HP1].
      now rewrite <- app_assoc. }
  intros acc w HP. now apply (Hgen l []).
Qed.

(** ** [get_all_processes] *)

Lemma get_all_processes_pids (os : OS) (w : World) :
  exists views w',
    get_all_processes os w = (Ret views, w')
    /\ map view_pid views = Dict.keys (registry w)
    /\ state w' = state w.
Proof.
  unfold get_all_processes. rewrite bind_eq. unfold get_state at 1.
  unfold Dict.items, Dict.keys, registry.
  apply (for_each_rule
           (fun done acc w' => map view_pid acc = map fst done /\ state w' = state w));
    [|split; reflexivity].
  intros done [pid info] rest acc w1 _ [Hacc Hst].
  rewrite try_except_eq, bind_eq.
  unfold psutil_Process at 1. unfold call at 1.
  assert (Hpids : forall v, view_pid v = pid ->
                            map view_pid (acc ++ [v]) = map fst (done ++ [(pid, info)])).
  { intros v Hv. rewrite !map_app, Hacc. cbn. now rewrite Hv. }
  destruct (os_Process os (history w1) pid) as [[]|e].
  - rewrite bind_eq. unfold Process_is_running at 1. unfold call at 1.
    cbn [history state].
    destruct (os_is_running os _ pid) as [running|e].
    + rewrite bind_eq. unfold Process_create_time at 1. unfold call at 1.
      cbn [history state].
      destruct (os_create_time os _ pid) as [start|e];
        do 2 eexists; (split; [reflexivity|]); (split; [now apply Hpids | exact Hst]).
    + do 2 eexists. split; [reflexivity|]. split; [now apply Hpids | exact Hst].
  - do 2 eexists. split; [reflexivity|]. split; [now apply Hpids | exact Hst].
Qed.

(** ** The terminal chunk and the registry *)

(** C4.  Whenever a resumption of the generator yields its terminal chunk,
    whatever the world it was resumed in, the pid of its process is not a key
    of the registry at that yield, and the listing [get_all_processes] then
    computes has no entry for it. *)
Theorem terminal_chunk_unregisters
    (os : OS) (g : Gen) (w : World) (chunk : string) (p : Popen) (w' : World)
    (Hnext : next os g w = (Ret (Some chunk, GenMarker p), w')) :
  chunk = exit_marker (returncode p)
  /\ Dict.mem (popen_pid p) (registry w') = false
  /\ exists views w'',
       get_all_processes os w' = (Ret views, w'')
       /\ ~ In (popen_pid p) (map view_pid views).
Proof.
  assert (Hloop : forall p0 n w0,
             except_yield_error (read_loop p0 n) w0
             = (Ret (Some chunk, GenMarker p), w') ->
             chunk = exit_marker (returncode p)
             /\ Dict.mem (popen_pid p) (registry w') = false).
  { intros p0 n w0 H.
    destruct (read_loop_cases p0 n w0)
      as [[e [w1 H1]] | [[w1 H1] | [w1 [H1 Hmem]]]];
      rewrite H1 in H; try discriminate H.
    injection H as <- <- <-. split; [reflexivity | exact Hmem]. }
  assert (Hgoal : chunk = exit_marker (returncode p)
                  /\ Dict.mem (popen_pid p) (registry w') = false).
  { destruct g as [command cwd | p0 n | p0 | | ]; try discriminate Hnext.
    - rewrite next_start in Hnext.
      destruct (os_Popen os
                  (history (world_of (log_message os ("Executing: " ++ command)
                                        "COMMAND" w))) command cwd)
        as [p0|e] eqn:Hspawn.
      + destruct (spawn_ok os command cwd _ p0 Hspawn) as [w1 Hw1].
        apply (Hloop p0 0%nat w1).
        unfold except_yield_error in *. rewrite try_except_eq in *.
        now rewrite <- Hw1.
      + unfold except_yield_error in Hnext. rewrite try_except_eq in Hnext.
        rewrite (spawn_raise os command cwd _ e Hspawn) in Hnext.
        discriminate Hnext.
    - exact (Hloop p0 n w Hnext). }
  destruct Hgoal as [Hchunk Hmem]. split; [exact Hchunk|]. split; [exact Hmem|].
  destruct (get_all_processes_pids os w') as [views [w'' [Hrun [Hpids _]]]].
  exists views, w''. split; [exact Hrun|].
  rewrite Hpids. now apply mem_false_iff.
Qed.

Lemma terminal_chunk_unregisters_witness :
  let p := Examples.handle 4242 ["hello" ++ PyStr.newline] 0 in
  let w := Examples.world [Examples.entry 4242 "echo hello"; Examples.entry 5 "sleep 100"] in
  Dict.mem 4242 (registry w) = true
  /\ Dict.mem 4242 (registry (world_of (next Examples.os_sh (GenLine p 1) w)))
     = false.
Proof.
  cbv zeta. split; [reflexivity|].
  refine (proj1 (proj2 (terminal_chunk_unregisters Examples.os_sh
            (GenLine (Examples.handle 4242 ["hello" ++ PyStr.newline] 0) 1)
            (Examples.world [Examples.entry 4242 "echo hello";
                             Examples.entry 5 "sleep 100"])
            (exit_marker 0)
            (Examples.handle 4242 ["hello" ++ PyStr.newline] 0) _ eq_refl))).
Defined.

(** ** [api_ctrl] *)

(** C9.  For a key other than [C] and [Z], [api_ctrl] sends no signal: all
    it adds to the history are the prints of log lines.  It logs one
    [Sent Ctrl+<key> to process <pid>] line per registered pid, in registry
    order, whether or not that process exists, leaves the registry as it
    was and answers with success. *)
Theorem api_ctrl_other_key (os : OS) (key : string) (w : World)
    (HC : key <> "C") (HZ : key <> "Z") :
  exists lines w',
    api_ctrl os key w
    = (Ret {| success := true; message := None; killed := None |}, w')
    /\ history w' = (history w ++ map EvPrint lines)%list
    /\ (forall pid sig, ~ In (EvSignal pid sig) (map EvPrint lines))
    /\ Forall2 (ctrl_line key) (Dict.keys (registry w)) lines
    /\ logs (state w') = fold_left (fun log line => logged line log) lines
                           (logs (state w))
    /\ registry w' = registry w.
Proof.
  unfold api_ctrl. rewrite bind_eq. unfold get_state at 1. rewrite bind_eq.
  destruct (for_each_rule
              (fun done (_ : unit) w1 =>
                 exists lines,
                   history w1 = (history w ++ map EvPrint lines)%list
                   /\ Forall2 (ctrl_line key) done lines
                   /\ logs (state w1)
                      = fold_left (fun log line => logged line log) lines
                          (logs (state w))
                   /\ registry w1 = registry w)
              (Dict.keys (processes (state w)))
              (fun pid _ =>
                 try_except
                   ((if String.eqb key "C" then os_kill_signal os pid SIGINT
                     else if String.eqb key "Z" then os_kill_signal os pid SIGTSTP
                     else ret tt) ;;
                    log_message os ("Sent Ctrl+" ++ key ++ " to process "
                                    ++ PyStr.of_int pid) "SIGNAL" ;;
                    ret tt)
                   (fun _ => ret tt)))
    with (acc := tt) (w := w) as [acc' [w' [Hrun [lines [Hh [Hlines [Hlogs Hreg]]]]]]].
  - intros done pid rest [] w1 _ [lines [Hh [Hlines [Hlogs Hreg]]]].
    rewrite try_except_eq, bind_eq.
    destruct (String.eqb_spec key "C") as [|_]; [contradiction|].
    destruct (String.eqb_spec key "Z") as [|_]; [contradiction|].
    unfold ret at 1. rewrite bind_eq, log_message_eq. cbv zeta. unfold ret.
    do 2 eexists. split; [reflexivity|].
    eexists (lines ++ [_])%list. cbn [history state logs processes].
    split; [|split; [|split]].
    + rewrite map_app, app_assoc, <- Hh. reflexivity.
    + apply Forall2_app; [exact Hlines|]. constructor; [|constructor].
      eexists. reflexivity.
    + rewrite fold_left_app, <- Hlogs. reflexivity.
    + exact Hreg.
  - exists []. cbn. rewrite app_nil_r. repeat split. constructor.
  - rewrite Hrun. unfold ret. exists lines, w'.
    split; [reflexivity|]. split; [exact Hh|]. split; [|auto].
    intros pid sig Hin. apply in_map_iff in Hin.
    destruct Hin as [line [Hline _]]. discriminate Hline.
Qed.

Lemma api_ctrl_other_key_witness :
  exists lines w',
    api_ctrl Examples.os_tree "X"
      (Examples.world [Examples.entry 5 "sleep 100"; Examples.entry 7 "python x.py"])
    = (Ret {| success := true; message := None; killed := None |}, w')
    /\ history w' = map EvPrint lines
    /\ length lines = 2%nat.
Proof.
  destruct (api_ctrl_other_key Examples.os_tree "X"
              (Examples.world [Examples.entry 5 "sleep 100";
                               Examples.entry 7 "python x.py"]))
    as [lines [w' [Hrun [Hh [_ [Hlines _]]]]]].
  - discriminate.
  - discriminate.
  - exists lines, w'. split; [exact Hrun|]. split; [exact Hh|].
    apply Forall2_length in Hlines. symmetry. exact Hlines.
Defined.

(** ** The loops over the registry *)

Lemma kill_tree_event_tree (ev : Event) : kill_tree_event ev -> tree_event ev.
Proof. destruct ev; simpl; tauto. Qed.

Lemma tree_events_not_pids (evs : list Event) :
  Forall tree_event evs -> ~ In EvPids evs.
Proof.
  intros Hall Hin. rewrite Forall_forall in Hall. exact (Hall _ Hin).
Qed.

Lemma without_snoc (acc : list Z) (x : Z) (d : Dict.t Info) :
  without (acc ++ [x]) d = Dict.remove x (without acc d).
Proof.
  unfold without, Dict.remove.
  induction d as [|[k v] d IH]; cbn [filter fst]; [reflexivity|].
  rewrite existsb_app. cbn [existsb]. rewrite orb_false_r, negb_orb.
  rewrite (Z.eqb_sym k x).
  destruct (existsb (Z.eqb k) acc); cbn [negb andb filter fst].
  - exact IH.
  - destruct (x =? k); cbn [negb]; now rewrite IH.
Qed.

Lemma in_keys_without (acc : list Z) (x : Z) (d : Dict.t Info) :
  In x (Dict.keys d) -> ~ In x acc -> In x (Dict.keys (without acc d)).
Proof.
  unfold Dict.keys, without. intros Hin Hacc.
  apply in_map_iff in Hin. destruct Hin as [[k v] [Hk Hin]]. cbn in Hk. subst k.
  apply in_map_iff. exists (x, v). split; [reflexivity|].
  apply filter_In. split; [exact Hin|]. cbn [fst].
  apply negb_true_iff. destruct (existsb (Z.eqb x) acc) eqn:E; [|reflexivity].
  apply existsb_exists in E. destruct E as [y [Hy Heq]].
  apply Z.eqb_eq in Heq. subst y. contradiction.
Qed.







(** ** The loops over [process_iter] *)

Lemma for_process_iter_scan (os : OS) (test : ProcAttrs -> bool)
    (body : Z -> ProcAttrs -> list Z -> M (list Z)) (acc0 : list Z) (w : World) :
  (forall pid attrs acc w1,
      exists acc' w2 evs,
        body pid attrs acc w1 = (Ret acc', w2)
        /\ history w2 = (history w1 ++ evs)%list
        /\ Forall tree_event evs
        /\ processes (state w2) = processes (state w1)
        /\ (test attrs = true -> In (EvProcess pid) evs)
        /\ exists more, acc' = (acc ++ more)%list) ->
  exists acc' w',
    for_process_iter os acc0 body w = (Ret acc', w')
    /\ scan_loop_inv test
         {| state := state w; history := history w ++ [EvPids] |}
         acc0 (os_pids os (history w)) acc' w'.
Proof.
  intros Hbody. unfold for_process_iter. rewrite bind_eq. unfold call at 1.
  apply (for_each_rule
           (fun done acc w1 =>
              scan_loop_inv test
                {| state := state w; history := history w ++ [EvPids] |}
                acc0 done acc w1)).
  - intros done x rest acc w1 _
      [phase [Hh [Hreg [Hdone [Htest [Hpids [more Hacc]]]]]]].
    rewrite bind_eq. unfold inspect at 1.
    destruct (os_proc_info os (history w1) x) as [attrs|] eqn:Hinfo.
    + destruct (Hbody x attrs acc
                  {| state := state w1;
                     history := history w1 ++ [EvProcInfo x (Some attrs)] |})
        as [acc' [w2 [evs [Hrun [Hh2 [Hevs [Hreg2 [Hkill [more' Hacc']]]]]]]]].
      rewrite Hrun. exists acc', w2. split; [reflexivity|].
      exists (phase ++ EvProcInfo x (Some attrs) :: evs)%list.
      cbn [history state] in *.
      split; [rewrite Hh2, Hh, <- !app_assoc; reflexivity|].
      split; [rewrite Hreg2; exact Hreg|].
      split.
      { intros pid Hin. apply in_app_or in Hin. destruct Hin as [Hin|[<-|[]]].
        - destruct (Hdone pid Hin) as [r Hr]. exists r. apply in_or_app. now left.
        - exists (Some attrs). apply in_or_app. right. now left. }
      split.
      { intros pid attrs' Hin Ht. apply in_app_or in Hin.
        destruct Hin as [Hin|[Heq|Hin]].
        - apply in_or_app. left. now apply (Htest pid attrs').
        - injection Heq as <- <-. apply in_or_app. right. right. now apply Hkill.
        - rewrite Forall_forall in Hevs. destruct (Hevs _ Hin). }
      split.
      { intros Hin. apply in_app_or in Hin. destruct Hin as [Hin|[Heq|Hin]].
        - contradiction.
        - discriminate Heq.
        - exact (tree_events_not_pids evs Hevs Hin). }
      exists (more ++ more')%list. now rewrite Hacc', Hacc, app_assoc.
    + unfold ret. do 2 eexists. split; [reflexivity|].
      exists (phase ++ [EvProcInfo x None])%list. cbn [history state] in *.
      split; [rewrite Hh, <- !app_assoc; reflexivity|].
      split; [exact Hreg|].
      split.
      { intros pid Hin. apply in_app_or in Hin. destruct Hin as [Hin|[<-|[]]].
        - destruct (Hdone pid Hin) as [r Hr]. exists r. apply in_or_app. now left.
        - exists None. apply in_or_app. right. now left. }
      split.
      { intros pid attrs' Hin Ht. apply in_app_or in Hin.
        destruct Hin as [Hin|[Heq|[]]]; [|discriminate Heq].
        apply in_or_app. left. now apply (Htest pid attrs'). }
      split.
      { intros Hin. apply in_app_or in Hin.
        destruct Hin as [Hin|[Heq|[]]]; [contradiction | discriminate Heq]. }
      exists more. exact Hacc.
  - exists []. cbn [history state]. rewrite app_nil_r.
    split; [reflexivity|]. split; [reflexivity|].
    split; [intros pid []|]. split; [intros pid attrs []|].
    split; [intros []|]. exists []. now rewrite app_nil_r.
Qed.


(** The body of the second loop of [api_stop]. *)
Lemma stop_scan_body (os : OS) (filename : string) (pid : Z) (attrs : ProcAttrs)
    (acc : list Z) (w1 : World) :
  exists acc' w2 evs,
    try_except
      (let cmdline :=
         PyStr.join " " (match attr_cmdline attrs with
                         | Some l => l
                         | None => []
                         end) in
       if PyStr.contains filename cmdline then
         ok <- kill_process_tree os pid ;;
         if ok : bool then
           log_message os ("Killed system process " ++ PyStr.of_int pid
                           ++ " for " ++ filename) "PROCESS" ;;
           ret (acc ++ [pid])%list
         else ret acc
       else ret acc)
      (fun _ => ret acc) w1 = (Ret acc', w2)
    /\ history w2 = (history w1 ++ evs)%list
    /\ Forall tree_event evs
    /\ processes (state w2) = processes (state w1)
    /\ (cmdline_contains filename attrs = true -> In (EvProcess pid) evs)
    /\ exists more, acc' = (acc ++ more)%list.
Proof.
  assert (Hskip : exists more, acc = (acc ++ more)%list)
    by (exists []; now rewrite app_nil_r).
  rewrite try_except_eq. unfold cmdline_contains. cbv zeta.
  destruct (PyStr.contains filename _).
  - destruct (kill_process_tree_spec os pid w1) as [evs [log' [Hkill Hevs]]].
    rewrite bind_eq, Hkill.
    assert (Htree : Forall tree_event (EvProcess pid :: evs)).
    { constructor; [exact I|].
      eapply Forall_impl; [|exact Hevs]. exact kill_tree_event_tree. }
    destruct (root_resolved os (history w1) pid
              && descendants_listed os (history w1) pid).
    + rewrite bind_eq, log_message_eq. cbv zeta. unfold ret.
      do 2 eexists. eexists ((EvProcess pid :: evs) ++ [EvPrint _])%list.
      split; [reflexivity|].
      split; [cbn [history]; rewrite <- app_assoc; reflexivity|].
      split; [apply Forall_app; split; [exact Htree | repeat constructor]|].
      split; [reflexivity|]. split; [intros _; now left|].
      eexists. reflexivity.
    + unfold ret. do 2 eexists. exists (EvProcess pid :: evs).
      split; [reflexivity|]. split; [reflexivity|]. split; [exact Htree|].
      split; [reflexivity|]. split; [intros _; now left | exact Hskip].
  - unfold ret. do 2 eexists. exists [].
    split; [reflexivity|]. split; [now rewrite app_nil_r|].
    split; [constructor|]. split; [reflexivity|].
    split; [discriminate | exact Hskip].
Qed.

(** ** [api_kill_all] *)




(** ** [api_stop] with the empty filename *)



(** * Further properties *)

(** ** The log *)

Lemma logged_snoc (line : string) (log : list string) :
  exists kept, logged line log = (kept ++ [line])%list.
Proof.
  destruct (logged_suffix line log) as [dropped Hsuffix].
  assert (Hne : logged line log <> []).
  { unfold logged, last_n.
    destruct (Nat.ltb_spec 1000 (length (log ++ [line]))) as [Hlt|Hle].
    - intros Hnil. apply (f_equal (@length string)) in Hnil.
      rewrite length_skipn in Hnil. simpl in Hnil. lia.
    - destruct log; discriminate. }
  revert Hsuffix Hne. generalize (logged line log). intros lg.
  induction lg as [|x rest _] using rev_ind; intros Hsuffix Hne; [contradiction|].
  rewrite app_assoc in Hsuffix. apply app_inj_tail in Hsuffix.
  destruct Hsuffix as [_ <-]. now exists rest.
Qed.

(** X1.  [log_message] returns the line it formatted; that line is printed,
    and it is the last line of the log afterwards, also when older lines were
    dropped. *)
Theorem log_message_newest_last (os : OS) (msg level : string) (w : World) :
  let line := "[" ++ os_now os (history w) ++ "] [" ++ level ++ "] " ++ msg in
  exists kept w',
    log_message os msg level w = (Ret line, w')
    /\ logs (state w') = (kept ++ [line])%list
    /\ last (logs (state w')) "" = line
    /\ history w' = (history w ++ [EvPrint line])%list.
Proof.
  intros line. rewrite log_message_eq. cbv zeta. fold (log_line (os_now os (history w)) level msg).
  destruct (logged_snoc (log_line (os_now os (history w)) level msg) (logs (state w)))
    as [kept Hkept].
  exists kept. eexists. split; [reflexivity|]. cbn [state logs history].
  rewrite Hkept. split; [reflexivity|]. split; [apply last_snoc | reflexivity].
Qed.

(** ** [kill_process_tree], in detail *)

Lemma kills_sent_app (a b : list Event) :
  kills_sent (a ++ b) = (kills_sent a ++ kills_sent b)%list.
Proof.
  induction a as [|ev a IH]; [reflexivity|].
  destruct ev; cbn [app kills_sent]; rewrite IH; reflexivity.
Qed.

Lemma process_calls_app (a b : list Event) :
  process_calls (a ++ b) = (process_calls a ++ process_calls b)%list.
Proof.
  induction a as [|ev a IH]; [reflexivity|].
  destruct ev; cbn [app process_calls]; rewrite IH; reflexivity.
Qed.

Lemma signals_sent_app (a b : list Event) :
  signals_sent (a ++ b) = (signals_sent a ++ signals_sent b)%list.
Proof.
  induction a as [|ev a IH]; [reflexivity|].
  destruct ev; cbn [app signals_sent]; rewrite IH; reflexivity.
Qed.

Lemma printed_app (a b : list Event) :
  printed (a ++ b) = (printed a ++ printed b)%list.
Proof.
  induction a as [|ev a IH]; [reflexivity|].
  destruct ev; cbn [app printed]; rewrite IH; reflexivity.
Qed.

Lemma kills_sent_map (l : list Z) : kills_sent (map EvKill l) = l.
Proof. induction l as [|x l IH]; [reflexivity|]. cbn. now rewrite IH. Qed.

Lemma process_calls_kill_events (evs : list Event) :
  Forall kill_tree_event evs -> process_calls evs = [].
Proof.
  induction 1 as [|ev evs Hev _ IH]; [reflexivity|].
  destruct ev; cbn in Hev; try contradiction; exact IH.
Qed.

Lemma signals_sent_tree_events (evs : list Event) :
  Forall tree_event evs -> signals_sent evs = [].
Proof.
  induction 1 as [|ev evs Hev _ IH]; [reflexivity|].
  destruct ev; cbn in Hev; try contradiction; exact IH.
Qed.

(** X2.  When the root process resolves and its descendants can be listed,
    [kill_process_tree] kills every listed descendant, in the order listed,
    and then the root, whatever the individual kills do; it logs nothing and
    returns true. *)
Theorem kill_process_tree_kills_descendants_then_root
    (os : OS) (pid : Z) (w : World) (children : list Z)
    (Hroot : os_Process os (history w) pid = Ret tt)
    (Hchildren : os_children os (history w ++ [EvProcess pid]) pid = Ret children) :
  kill_process_tree os pid w =
  (Ret true,
   {| state := state w;
      history := history w ++ [EvProcess pid; EvChildren pid]
                 ++ map EvKill children ++ [EvKill pid] |})
  /\ kills_sent ([EvProcess pid; EvChildren pid]
                 ++ map EvKill children ++ [EvKill pid])
     = (children ++ [pid])%list.
Proof.
  split.
  - unfold kill_process_tree.
    rewrite try_except_eq, bind_eq. unfold psutil_Process at 1. unfold call at 1.
    rewrite Hroot. rewrite bind_eq. unfold Process_children at 1. unfold call at 1.
    cbn [history state]. rewrite Hchildren.
    rewrite bind_eq, kill_children_eq, bind_eq, try_except_eq.
    unfold Process_kill, call, ret. cbn [history state].
    destruct (os_kill os _ pid); repeat (rewrite <- app_assoc; cbn [app]);
      reflexivity.
  - cbn [app kills_sent]. rewrite kills_sent_app, kills_sent_map. reflexivity.
Qed.

Lemma kill_process_tree_kills_descendants_then_root_witness :
  kills_sent (history (snd (kill_process_tree Examples.os_tree 7 Examples.fresh)))
  = [8; 9; 7].
Proof.
  destruct (kill_process_tree_kills_descendants_then_root Examples.os_tree 7
              Examples.fresh [8; 9] eq_refl eq_refl) as [Hrun _].
  rewrite Hrun. reflexivity.
Defined.

(** X3.  [kill_process_tree] calls [psutil.Process] once, on its argument.
    When it returns false it has killed nothing.  It logs one ERROR line
    naming the pid and the exception when resolving the root or listing the
    descendants raised something other than [NoSuchProcess], and nothing
    otherwise. *)
Theorem kill_process_tree_failure_kills_nothing (os : OS) (pid : Z) (w : World) :
  exists ok w' new,
    kill_process_tree os pid w = (Ret ok, w')
    /\ history w' = (history w ++ new)%list
    /\ process_calls new = [pid]
    /\ (if ok then True else kills_sent new = [])
    /\ match first_failure os (history w) pid with
       | None | Some (NoSuchProcess _) => logs (state w') = logs (state w)
       | Some e =>
           exists timestamp,
             logs (state w')
             = logged (kill_error_line timestamp pid e) (logs (state w))
       end.
Proof.
  destruct w as [[d l] h].
  unfold kill_process_tree, first_failure, kill_error_line.
  rewrite try_except_eq, bind_eq. unfold psutil_Process at 1. unfold call at 1.
  cbn [history state processes logs].
  destruct (os_Process os h pid) as [[]|e].
  - rewrite bind_eq. unfold Process_children at 1. unfold call at 1.
    cbn [history state processes logs].
    destruct (os_children os (h ++ [EvProcess pid]) pid) as [cs|e].
    + rewrite bind_eq, kill_children_eq, bind_eq, try_except_eq.
      unfold Process_kill, call, ret. cbn [history state processes logs].
      exists true. eexists.
      exists (EvProcess pid :: EvChildren pid :: map EvKill cs ++ [EvKill pid]).
      split; [destruct (os_kill os _ pid); reflexivity|].
      cbn [history state logs].
      split; [repeat (rewrite <- app_assoc; cbn [app]); reflexivity|].
      split; [|split; [exact I | reflexivity]].
      cbn [process_calls]. rewrite process_calls_app.
      rewrite (process_calls_kill_events (map EvKill cs)); [reflexivity|].
      apply Forall_forall. intros ev Hin. apply in_map_iff in Hin.
      destruct Hin as [x [<- _]]. exact I.
    + destruct e; try rewrite bind_eq, log_message_eq; unfold ret;
        cbv beta iota zeta; exists false; eexists;
        [exists [EvProcess pid; EvChildren pid]
        |eexists [EvProcess pid; EvChildren pid; EvPrint _]
        |eexists [EvProcess pid; EvChildren pid; EvPrint _]];
        (split; [reflexivity|]); cbn [history state logs];
        (split; [repeat (rewrite <- app_assoc; cbn [app]); reflexivity|]);
        (split; [reflexivity|]); (split; [reflexivity|]);
        try reflexivity; eexists; reflexivity.
  - destruct e; try rewrite bind_eq, log_message_eq; unfold ret;
      cbv beta iota zeta; exists false; eexists;
      [exists [EvProcess pid]
      |eexists [EvProcess pid; EvPrint _]
      |eexists [EvProcess pid; EvPrint _]];
      (split; [reflexivity|]); cbn [history state logs];
      (split; [repeat (rewrite <- app_assoc; cbn [app]); reflexivity|]);
      (split; [reflexivity|]); (split; [reflexivity|]);
      try reflexivity; eexists; reflexivity.
Qed.

(** ** [get_all_processes], in detail *)

(** X4.  [get_all_processes] never raises and changes nothing in the
    program state.  It returns one view per registry entry, in registry
    order, with the pid, command and type of the entry and a status that is
    [running] or [dead], also when the process calls raise. *)
Theorem get_all_processes_lists_registry (os : OS) (w : World) :
  exists views w',
    get_all_processes os w = (Ret views, w')
    /\ state w' = state w
    /\ Forall2 (fun kv v =>
                  view_pid v = fst kv
                  /\ view_cmd v = info_cmd (snd kv)
                  /\ view_type v = info_type (snd kv)
                  /\ (view_status v = "running" \/ view_status v = "dead"))
         (registry w) views.
Proof.
  unfold get_all_processes. rewrite bind_eq. unfold get_state at 1.
  unfold Dict.items, registry.
  match goal with
  | |- context [for_each ?l ?a ?b w] =>
      destruct (for_each_rule
                  (fun done acc w1 =>
                     state w1 = state w
                     /\ Forall2 (fun kv v =>
                                   view_pid v = fst kv
                                   /\ view_cmd v = info_cmd (snd kv)
                                   /\ view_type v = info_type (snd kv)
                                   /\ (view_status v = "running"
                                       \/ view_status v = "dead"))
                          done acc) l b) with (acc := a) (w := w)
      as [views [w' [Hrun [Hst Hviews]]]]
  end.
  - intros done [pid info] rest acc w1 _ [Hst Hacc].
    rewrite try_except_eq, bind_eq.
    unfold psutil_Process at 1. unfold call at 1.
    assert (Hstep : forall status start,
               status = "running" \/ status = "dead" ->
               Forall2 (fun kv v =>
                          view_pid v = fst kv
                          /\ view_cmd v = info_cmd (snd kv)
                          /\ view_type v = info_type (snd kv)
                          /\ (view_status v = "running" \/ view_status v = "dead"))
                 (done ++ [(pid, info)])
                 (acc ++ [{| view_pid := pid; view_cmd := info_cmd info;
                             view_status := status; view_start_time := start;
                             view_type := info_type info |}])).
    { intros status start Hstatus. apply Forall2_app; [exact Hacc|].
      constructor; [|constructor]. cbn. auto. }
    destruct (os_Process os (history w1) pid) as [[]|e].
    + rewrite bind_eq. unfold Process_is_running at 1. unfold call at 1.
      cbn [history state].
      destruct (os_is_running os _ pid) as [running|e].
      * rewrite bind_eq. unfold Process_create_time at 1. unfold call at 1.
        cbn [history state].
        destruct (os_create_time os _ pid) as [start|e];
          do 2 eexists; (split; [reflexivity|]); (split; [exact Hst|]);
          apply Hstep; destruct running; auto.
      * do 2 eexists. split; [reflexivity|]. split; [exact Hst|].
        apply Hstep. auto.
    + do 2 eexists. split; [reflexivity|]. split; [exact Hst|].
      apply Hstep. auto.
  - split; [reflexivity | constructor].
  - exists views, w'. split; [exact Hrun|]. split; [exact Hst | exact Hviews].
Qed.

(** ** [execute_command_stream], in detail *)

Lemma rstrip_split (s : string) :
  exists trail,
    s = PyStr.rstrip s ++ trail
    /\ all_space trail = true
    /\ no_trailing_space (PyStr.rstrip s) = true.
Proof.
  induction s as [|c rest [trail [Hsplit [Hspace Hbody]]]].
  - exists "". repeat split.
  - cbn [PyStr.rstrip].
    destruct (PyStr.rstrip rest) as [|c' r'] eqn:Hr.
    + cbn [append] in Hsplit. subst trail.
      destruct (PyStr.isspace c) eqn:Hc.
      * exists (String c rest). cbn [append all_space]. rewrite Hc, Hspace.
        repeat split.
      * exists rest. cbn [append no_trailing_space]. rewrite Hc, Hspace.
        repeat split.
    + exists trail. cbn [append]. cbn [append] in Hsplit. rewrite <- Hsplit.
      split; [reflexivity|]. split; [exact Hspace|]. exact Hbody.
Qed.

(** X5.  The chunk yielded for a line the child wrote is that line with all
    white space at its end, the line end included, replaced by one newline. *)
Theorem line_chunk_strips_trailing_space (os : OS) (p : Popen) (n : nat)
    (w : World) (line : string)
    (Hread : stdout_readline p n = Ret line) (Hline : line <> "") :
  exists body trail w',
    next os (GenLine p n) w
    = (Ret (Some (body ++ PyStr.newline), GenLine p (S n)), w')
    /\ line = body ++ trail
    /\ all_space trail = true
    /\ no_trailing_space body = true
    /\ state w' = state w.
Proof.
  destruct (rstrip_split line) as [trail [Hsplit [Hspace Hbody]]].
  exists (PyStr.rstrip line), trail. eexists.
  cbn [next]. unfold except_yield_error. rewrite try_except_eq.
  rewrite (read_loop_line p n w line Hread Hline).
  unfold line_chunk. rewrite Hread.
  split; [reflexivity|]. split; [exact Hsplit|]. split; [exact Hspace|].
  split; [exact Hbody | reflexivity].
Qed.

Lemma line_chunk_strips_trailing_space_witness :
  exists body trail w',
    next Examples.os_sh
      (GenLine (Examples.handle 4242 ["make: done.  " ++ PyStr.newline] 0) 0)
      Examples.fresh
    = (Ret (Some (body ++ PyStr.newline),
            GenLine (Examples.handle 4242 ["make: done.  " ++ PyStr.newline] 0) 1),
       w')
    /\ "make: done.  " ++ PyStr.newline = body ++ trail
    /\ no_trailing_space body = true.
Proof.
  destruct (line_chunk_strips_trailing_space Examples.os_sh
              (Examples.handle 4242 ["make: done.  " ++ PyStr.newline] 0) 0
              Examples.fresh ("make: done.  " ++ PyStr.newline))
    as [body [trail [w' [Hnext [Hsplit [_ [Hbody _]]]]]]].
  - reflexivity.
  - discriminate.
  - exists body, trail, w'. split; [exact Hnext|]. split; assumption.
Defined.

Lemma spawn_ok_world (os : OS) (command cwd : string) (w : World) (p : Popen) :
  os_Popen os (history w) command cwd = Ret p ->
  spawn os command cwd w =
  read_loop p 0
    {| state := {| processes := Dict.set (popen_pid p) (registered_info p command)
                                  (registry w);
                   logs := logs (state w) |};
       history := history w ++ [EvPopen command cwd] |}.
Proof.
  intros Hspawn. unfold spawn.
  rewrite bind_eq. unfold subprocess_Popen at 1. unfold call at 1.
  rewrite Hspawn. rewrite bind_eq.
  unfold processes_setitem at 1. rewrite bind_eq.
  unfold get_state at 1. unfold set_processes at 1. reflexivity.
Qed.

(** The world in which the generator enters its read loop when [Popen]
    returned [p]. *)
Lemma next_start_spawned (os : OS) (command cwd : string) (w : World) (p : Popen) :
  os_Popen os (history_at_spawn os command w) command cwd = Ret p ->
  exists h,
    next os (GenStart command cwd) w =
    except_yield_error (read_loop p 0)
      {| state :=
           {| processes := Dict.set (popen_pid p) (registered_info p command)
                             (registry w);
              logs := logged (log_line (os_now os (history w)) "COMMAND"
                                ("Executing: " ++ command)) (logs (state w)) |};
         history := h |}.
Proof.
  intros Hspawn. unfold history_at_spawn in Hspawn.
  rewrite next_start. unfold except_yield_error, world_of.
  rewrite !try_except_eq.
  rewrite (spawn_ok_world os command cwd _ p Hspawn).
  rewrite log_message_eq. cbv zeta. cbn [snd state logs processes history registry].
  eexists. reflexivity.
Qed.

(** Draining the chunks of [k] lines, one resumption each. *)
Lemma drain_lines (os : OS) (p : Popen) :
  forall (k n fuel : nat) (g : Gen) (w w0 : World),
    next os g w = except_yield_error (read_loop p n) w0 ->
    (forall i, (n <= i < n + k)%nat ->
               exists line, stdout_readline p i = Ret line /\ line <> "") ->
    (k < fuel)%nat ->
    exists wk,
      state wk = state w0
      /\ drain os fuel g w =
         (let '(chunks, g', w') := drain os (fuel - k) (GenLine p (n + k)) wk in
          ((map (line_chunk p) (seq n k) ++ chunks)%list, g', w')).
Proof.
  induction k as [|k IH]; intros n fuel g w w0 Hnext Hlines Hfuel.
  - exists w0. split; [reflexivity|].
    rewrite Nat.add_0_r, Nat.sub_0_r.
    destruct fuel as [|fuel]; [lia|].
    cbn [drain seq map app next]. rewrite Hnext.
    destruct (except_yield_error (read_loop p n) w0) as [[[[chunk|] g']|e] w1];
      try reflexivity.
    destruct (drain os fuel g' w1) as [[chunks g''] w'']. reflexivity.
  - destruct fuel as [|fuel]; [lia|].
    destruct (Hlines n ltac:(lia)) as [line [Hread Hline]].
    destruct (IH (S n) fuel (GenLine p (S n))
                {| state := state w0;
                   history := history w0 ++ [EvReadline (popen_pid p)] |}
                {| state := state w0;
                   history := history w0 ++ [EvReadline (popen_pid p)] |})
      as [wk [Hst Hdrain]].
    + reflexivity.
    + intros i Hi. apply Hlines. lia.
    + lia.
    + exists wk. split; [exact Hst|].
      cbn [drain seq map]. rewrite Hnext.
      unfold except_yield_error at 1. rewrite try_except_eq.
      rewrite (read_loop_line p n w0 line Hread Hline).
      rewrite Hdrain.
      replace (n + S k)%nat with (S n + k)%nat by lia.
      cbn [Nat.sub].
      destruct (drain os (fuel - k) (GenLine p (S n + k)) wk) as [[chunks g'] w'].
      reflexivity.
Qed.

Lemma drain_eof (os : OS) (p : Popen) (n fuel : nat) (w : World) :
  stdout_readline p n = Ret "" -> (2 <= fuel)%nat ->
  exists h,
    drain os fuel (GenLine p n) w =
    ([exit_marker (returncode p)], GenDone,
     {| state := {| processes := Dict.remove (popen_pid p) (registry w);
                    logs := logs (state w) |};
        history := h |}).
Proof.
  intros Heof Hfuel. destruct fuel as [|[|fuel]]; try lia.
  cbn [drain next]. unfold except_yield_error. rewrite try_except_eq.
  rewrite read_loop_eof by exact Heof. cbn [next]. unfold ret.
  eexists. reflexivity.
Qed.

Lemma drain_raise (os : OS) (p : Popen) (n fuel : nat) (w : World) (e : Exn) :
  stdout_readline p n = Raise e -> (2 <= fuel)%nat ->
  exists h,
    drain os fuel (GenLine p n) w =
    ([error_line e], GenDone, {| state := state w; history := h |}).
Proof.
  intros Hraise Hfuel. destruct fuel as [|[|fuel]]; try lia.
  cbn [drain next]. unfold except_yield_error. rewrite try_except_eq.
  rewrite (read_loop_raise p n w e Hraise). cbn [next]. unfold ret.
  eexists. reflexivity.
Qed.

Lemma remove_set (k : Z) (v : Info) (d : Dict.t Info) :
  Dict.remove k (Dict.set k v d) = Dict.remove k d.
Proof.
  unfold Dict.remove.
  induction d as [|[k' v'] d IH]; cbn [Dict.set filter fst].
  - now rewrite Z.eqb_refl.
  - destruct (Z.eqb_spec k k') as [->|Hne]; cbn [filter fst].
    + now rewrite Z.eqb_refl.
    + destruct (Z.eqb_spec k k'); [contradiction|]. cbn [negb]. now rewrite IH.
Qed.

(** X6.  A command that is spawned and whose output is read to its end
    leaves the registry without its pid and otherwise as it was: where the
    pid was not registered before, the registry is unchanged.  The log has
    grown by the one [Executing:] line. *)
Theorem execute_command_stream_restores_registry
    (os : OS) (command cwd : string) (w : World) (p : Popen) (k fuel : nat)
    (Hspawn : os_Popen os (history_at_spawn os command w) command cwd = Ret p)
    (Hlines : forall i, (i < k)%nat ->
                        exists line, stdout_readline p i = Ret line /\ line <> "")
    (Heof : stdout_readline p k = Ret "")
    (Hfuel : (k + 2 <= fuel)%nat) :
  exists chunks w',
    execute_command_stream os fuel command cwd w = (chunks, GenDone, w')
    /\ registry w' = Dict.remove (popen_pid p) (registry w)
    /\ (if Dict.mem (popen_pid p) (registry w) then True
        else registry w' = registry w)
    /\ logs (state w')
       = logged (log_line (os_now os (history w)) "COMMAND"
                   ("Executing: " ++ command)) (logs (state w)).
Proof.
  destruct (next_start_spawned os command cwd w p Hspawn) as [h Hnext].
  destruct (drain_lines os p k 0 fuel (GenStart command cwd) w _ Hnext)
    as [wk [Hst Hdrain]].
  - intros i Hi. apply Hlines. lia.
  - lia.
  - destruct (drain_eof os p k (fuel - k) wk Heof ltac:(lia)) as [h' Hend].
    unfold execute_command_stream. rewrite Hdrain. cbn [Nat.add]. rewrite Hend.
    do 2 eexists. split; [reflexivity|].
    unfold registry in *. cbn [state processes logs]. rewrite Hst.
    cbn [state processes logs]. rewrite remove_set.
    split; [reflexivity|]. split; [|reflexivity].
    destruct (Dict.mem (popen_pid p) (processes (state w))) eqn:Hmem; [exact I|].
    now apply remove_absent.
Qed.

Lemma execute_command_stream_restores_registry_witness :
  exists chunks w',
    execute_command_stream Examples.os_sh 3 "echo hello" "/home"
      (Examples.world [Examples.entry 5 "sleep 100"]) = (chunks, GenDone, w')
    /\ Dict.keys (registry w') = [5].
Proof.
  destruct (execute_command_stream_restores_registry Examples.os_sh "echo hello"
              "/home" (Examples.world [Examples.entry 5 "sleep 100"])
              (Examples.handle 4242 ["hello" ++ PyStr.newline] 0) 1 3)
    as [chunks [w' [Hrun [Hreg _]]]].
  - reflexivity.
  - intros i Hi. destruct i as [|i]; [|lia].
    eexists. split; [reflexivity | discriminate].
  - reflexivity.
  - lia.
  - exists chunks, w'. split; [exact Hrun|]. rewrite Hreg. reflexivity.
Defined.

(** X7.  When a read of the child's output raises after [k] lines, the
    stream is the [k] line chunks followed by the error chunk and then ends;
    the entry registered for the process is still in the registry. *)
Theorem execute_command_stream_read_error_keeps_entry
    (os : OS) (command cwd : string) (w : World) (p : Popen) (k fuel : nat)
    (e : Exn)
    (Hspawn : os_Popen os (history_at_spawn os command w) command cwd = Ret p)
    (Hlines : forall i, (i < k)%nat ->
                        exists line, stdout_readline p i = Ret line /\ line <> "")
    (Hraise : stdout_readline p k = Raise e)
    (Hfuel : (k + 2 <= fuel)%nat) :
  exists w',
    execute_command_stream os fuel command cwd w =
    ((map (line_chunk p) (seq 0 k) ++ [error_line e])%list, GenDone, w')
    /\ Dict.get (popen_pid p) (registry w') = Some (registered_info p command)
    /\ Dict.mem (popen_pid p) (registry w') = true.
Proof.
  destruct (next_start_spawned os command cwd w p Hspawn) as [h Hnext].
  destruct (drain_lines os p k 0 fuel (GenStart command cwd) w _ Hnext)
    as [wk [Hst Hdrain]].
  - intros i Hi. apply Hlines. lia.
  - lia.
  - destruct (drain_raise os p k (fuel - k) wk e Hraise ltac:(lia)) as [h' Hend].
    unfold execute_command_stream. rewrite Hdrain. cbn [Nat.add]. rewrite Hend.
    eexists. split; [reflexivity|].
    unfold registry. cbn [state processes]. rewrite Hst. cbn [state processes].
    assert (Hget : Dict.get (popen_pid p)
                     (Dict.set (popen_pid p) (registered_info p command)
                        (registry w)) = Some (registered_info p command))
      by apply get_set_same.
    split; [exact Hget|].
    apply mem_true_iff. rewrite keys_set.
    destruct (Dict.mem (popen_pid p) (registry w)) eqn:Hmem.
    + now apply mem_true_iff.
    + apply in_or_app. right. now left.
Qed.

Lemma execute_command_stream_read_error_keeps_entry_witness :
  exists w',
    chunks_of (execute_command_stream Examples.os_binary 2 "cat /bin/ls" "/home"
                 Examples.fresh)
    = [error_line (Exception "'utf-8' codec can't decode byte 0x80 in position 24: invalid start byte")]
    /\ world_of (next Examples.os_binary (GenStart "cat /bin/ls" "/home")
                   Examples.fresh) = w'
    /\ Dict.keys (registry w') = [4244].
Proof.
  destruct (execute_command_stream_read_error_keeps_entry Examples.os_binary
              "cat /bin/ls" "/home" Examples.fresh
              {| popen_pid := 4244;
                 stdout_readline := fun _ =>
                   Raise (Exception "'utf-8' codec can't decode byte 0x80 in position 24: invalid start byte");
                 returncode := 0 |} 0 2
              (Exception "'utf-8' codec can't decode byte 0x80 in position 24: invalid start byte"))
    as [w' [Hrun _]].
  - reflexivity.
  - intros i Hi. lia.
  - reflexivity.
  - lia.
  - eexists. rewrite Hrun. split; [reflexivity|]. split; reflexivity.
Defined.

(** X8.  The first resumption of the generator logs the [Executing:] line
    with the command text and only then calls [Popen], whether or not the
    spawn succeeds; nothing else is logged by that resumption. *)
Theorem execute_logs_command_before_spawn
    (os : OS) (command cwd : string) (w : World) :
  let line := log_line (os_now os (history w)) "COMMAND"
                ("Executing: " ++ command) in
  exists y w' rest,
    next os (GenStart command cwd) w = (Ret y, w')
    /\ history w' = (history w ++ EvPrint line :: EvPopen command cwd :: rest)%list
    /\ logs (state w') = logged line (logs (state w)).
Proof.
  intros line. rewrite next_start. unfold except_yield_error, world_of.
  rewrite try_except_eq, log_message_eq. cbv zeta. cbn [snd]. fold line.
  destruct (os_Popen os (history w ++ [EvPrint line]) command cwd) as [p|e] eqn:Hspawn.
  - rewrite (spawn_ok_world os command cwd _ p) by exact Hspawn.
    cbn [history state logs registry processes].
    destruct (stdout_readline p 0) as [first|e] eqn:Hread.
    + destruct (String.eqb_spec first "") as [->|Hne].
      * rewrite read_loop_eof by exact Hread.
        do 3 eexists. split; [reflexivity|]. cbn [history state logs].
        split; [|reflexivity].
        rewrite <- !app_assoc. cbn [app]. reflexivity.
      * rewrite (read_loop_line p 0 _ first Hread Hne).
        do 3 eexists. split; [reflexivity|]. cbn [history state logs].
        split; [|reflexivity].
        rewrite <- !app_assoc. cbn [app]. reflexivity.
    + rewrite (read_loop_raise p 0 _ e Hread). unfold ret.
      do 3 eexists. split; [reflexivity|]. cbn [history state logs].
      split; [|reflexivity].
      rewrite <- !app_assoc. cbn [app]. reflexivity.
  - rewrite (spawn_raise os command cwd _ e) by exact Hspawn. unfold ret.
    exists (Some (error_line e), GenError). eexists. exists [].
    split; [reflexivity|]. cbn [history state logs].
    split; [|reflexivity].
    rewrite <- !app_assoc. cbn [app]. reflexivity.
Qed.

(** X9.  When [Popen] returns a process and its first line is read, the
    generator is suspended at that line's chunk with the process registered
    under its pid: the entry holds the handle, the command as given, and the
    type [python] if the lowercased command contains [python], else [bash].
    Entries under other pids are untouched. *)
Theorem execute_registers_spawned_process
    (os : OS) (command cwd : string) (w : World) (p : Popen) (line : string)
    (Hspawn : os_Popen os (history_at_spawn os command w) command cwd = Ret p)
    (Hread : stdout_readline p 0 = Ret line) (Hline : line <> "") :
  exists w',
    next os (GenStart command cwd) w
    = (Ret (Some (PyStr.rstrip line ++ PyStr.newline), GenLine p 1), w')
    /\ Dict.get (popen_pid p) (registry w')
       = Some {| info_process := p;
                 info_cmd := command;
                 info_type := if PyStr.contains "python" (PyStr.lower command)
                              then "python" else "bash" |}
    /\ (forall pid, pid <> popen_pid p ->
                    Dict.get pid (registry w') = Dict.get pid (registry w)).
Proof.
  destruct (next_start_spawned os command cwd w p Hspawn) as [h Hnext].
  rewrite Hnext. unfold except_yield_error. rewrite try_except_eq.
  rewrite (read_loop_line p 0 _ line Hread Hline).
  unfold line_chunk. rewrite Hread.
  eexists. split; [reflexivity|]. unfold registry. cbn [state processes].
  split; [apply get_set_same|].
  intros pid Hpid. now apply get_set_other.
Qed.

Lemma execute_registers_spawned_process_witness :
  exists w',
    next Examples.os_sh (GenStart "echo hello" "/home") Examples.fresh
    = (Ret (Some ("hello" ++ PyStr.newline),
            GenLine (Examples.handle 4242 ["hello" ++ PyStr.newline] 0) 1), w')
    /\ option_map info_type (Dict.get 4242 (registry w')) = Some "bash".
Proof.
  destruct (execute_registers_spawned_process Examples.os_sh "echo hello" "/home"
              Examples.fresh (Examples.handle 4242 ["hello" ++ PyStr.newline] 0)
              ("hello" ++ PyStr.newline))
    as [w' [Hnext [Hget _]]].
  - reflexivity.
  - reflexivity.
  - discriminate.
  - exists w'. split; [exact Hnext|].
    change (Dict.get 4242 (registry w'))
      with (Dict.get (popen_pid (Examples.handle 4242 ["hello" ++ PyStr.newline] 0))
              (registry w')).
    rewrite Hget. reflexivity.
Defined.

(** ** Invariants of the routes

    A property of the registry and the log that survives a new log line and
    the removal of a key is kept by every route that stops, kills, signals or
    lists; one that also survives an assignment to a key is kept by the
    generator. *)

Section Keeps.

Variable os : OS.
Variable I : Dict.t Info -> list string -> Prop.
Hypothesis I_log : forall d log line, I d log -> I d (logged line log).
Hypothesis I_del : forall d log pid, I d log -> I (Dict.remove pid d) log.
Hypothesis I_set : forall d log pid info, I d log -> I (Dict.set pid info d) log.

Lemma keeps_ret {A} (a : A) : keeps I (ret a).
Proof. intros w HI. exact HI. Qed.

Lemma keeps_raise {A} (e : Exn) : keeps I (@raise A e).
Proof. intros w HI. exact HI. Qed.

Lemma keeps_bind {A B} (m : M A) (k : A -> M B) :
  keeps I m -> (forall a, keeps I (k a)) -> keeps I (bind m k).
Proof.
  intros Hm Hk w HI. specialize (Hm w HI). rewrite bind_eq.
  destruct (m w) as [[a|e] w1]; cbn [snd] in *; [now apply Hk | exact Hm].
Qed.

Lemma keeps_try_except {A} (m : M A) (handler : Exn -> M A) :
  keeps I m -> (forall e, keeps I (handler e)) -> keeps I (try_except m handler).
Proof.
  intros Hm Hh w HI. specialize (Hm w HI). rewrite try_except_eq.
  destruct (m w) as [[a|e] w1]; cbn [snd] in *; [exact Hm | now apply Hh].
Qed.

Lemma keeps_for_each {A B} (body : A -> B -> M B) :
  (forall x acc, keeps I (body x acc)) ->
  forall l acc, keeps I (for_each l acc body).
Proof.
  intros Hbody l. induction l as [|x l IH]; intros acc; cbn [for_each].
  - apply keeps_ret.
  - apply keeps_bind; [apply Hbody | intros acc'; apply IH].
Qed.

Lemma keeps_call {A} (answer : list Event -> Res A) (ev : Event) :
  keeps I (call answer ev).
Proof. intros w HI. exact HI. Qed.

Lemma keeps_get_state : keeps I get_state.
Proof. intros w HI. exact HI. Qed.

Lemma keeps_log_message (msg level : string) : keeps I (log_message os msg level).
Proof.
  intros w HI. rewrite log_message_eq. cbv zeta. cbn [snd registry state logs processes].
  now apply I_log.
Qed.

Lemma keeps_processes_delitem (pid : Z) : keeps I (processes_delitem pid).
Proof.
  intros w HI. destruct (Dict.mem pid (registry w)) eqn:Hmem.
  - rewrite processes_delitem_present by exact Hmem.
    cbn [snd registry state logs processes]. now apply I_del.
  - rewrite processes_delitem_absent by exact Hmem. exact HI.
Qed.

Lemma keeps_processes_setitem (pid : Z) (info : Info) :
  keeps I (processes_setitem pid info).
Proof. intros w HI. cbn. now apply I_set. Qed.

Lemma keeps_kill_process_tree (pid : Z) : keeps I (kill_process_tree os pid).
Proof.
  unfold kill_process_tree.
  apply keeps_try_except.
  - apply keeps_bind; [apply keeps_call | intros _].
    apply keeps_bind; [apply keeps_call | intros children].
    apply keeps_bind; [|intros _].
    + apply keeps_for_each. intros child _.
      apply keeps_try_except; [apply keeps_call | intros _; apply keeps_ret].
    + apply keeps_bind; [|intros _; apply keeps_ret].
      apply keeps_try_except; [apply keeps_call | intros _; apply keeps_ret].
  - intros e. destruct e; try apply keeps_ret;
      (apply keeps_bind; [apply keeps_log_message | intros _; apply keeps_ret]).
Qed.

Lemma keeps_for_process_iter (acc : list Z)
    (body : Z -> ProcAttrs -> list Z -> M (list Z)) :
  (forall pid attrs acc', keeps I (body pid attrs acc')) ->
  keeps I (for_process_iter os acc body).
Proof.
  intros Hbody. unfold for_process_iter.
  apply keeps_bind; [apply keeps_call | intros pids].
  apply keeps_for_each. intros pid acc'.
  apply keeps_bind; [intros w HI; exact HI | intros r].
  destruct r as [attrs|]; [apply Hbody | apply keeps_ret].
Qed.

Ltac keeps_step :=
  match goal with
  | |- keeps _ (ret _) => apply keeps_ret
  | |- keeps _ (raise _) => apply keeps_raise
  | |- keeps _ get_state => apply keeps_get_state
  | |- keeps _ (print _) => apply keeps_call
  | |- keeps _ (log_message _ _ _) => apply keeps_log_message
  | |- keeps _ (kill_process_tree _ _) => apply keeps_kill_process_tree
  | |- keeps _ (processes_delitem _) => apply keeps_processes_delitem
  | |- keeps _ (processes_setitem _ _) => apply keeps_processes_setitem
  | |- keeps _ (call _ _) => apply keeps_call
  | |- keeps _ (bind _ _) => apply keeps_bind; [|intro]
  | |- keeps _ (try_except _ _) => apply keeps_try_except; [|intro]
  | |- keeps _ (for_each _ _ _) => apply keeps_for_each; intros
  | |- keeps _ (for_process_iter _ _ _) => apply keeps_for_process_iter; intros
  | |- keeps _ (if ?b then _ else _) => destruct b
  | |- keeps _ (match ?x with _ => _ end) => destruct x
  | |- keeps _ (match ?x with _ => _ end _) => destruct x
  end.

Lemma keeps_api_stop (filename : string) : keeps I (api_stop os filename).
Proof. unfold api_stop. repeat (cbv zeta; keeps_step). Qed.

Lemma keeps_api_stop_pid (pid : Z) : keeps I (api_stop_pid os pid).
Proof. unfold api_stop_pid. repeat (cbv zeta; keeps_step). Qed.

Lemma keeps_api_kill_all : keeps I (api_kill_all os).
Proof. unfold api_kill_all. repeat (cbv zeta; keeps_step). Qed.

Lemma keeps_api_ctrl (key : string) : keeps I (api_ctrl os key).
Proof.
  unfold api_ctrl, os_kill_signal. repeat (cbv zeta; keeps_step).
Qed.

Lemma keeps_shutdown : keeps I (shutdown os).
Proof. unfold shutdown. repeat (cbv zeta; keeps_step). Qed.

Lemma keeps_get_all_processes : keeps I (get_all_processes os).
Proof.
  unfold get_all_processes, psutil_Process, Process_is_running,
    Process_create_time.
  repeat (cbv zeta; keeps_step).
Qed.

Lemma keeps_next (g : Gen) : keeps I (next os g).
Proof.
  destruct g as [command cwd | p n | p | | ]; cbn [next];
    try apply keeps_ret.
  - unfold except_yield_error, spawn, read_loop, subprocess_Popen, readline,
      Popen_wait.
    repeat (cbv zeta; keeps_step).
  - unfold except_yield_error, read_loop, readline, Popen_wait.
    repeat (cbv zeta; keeps_step).
Qed.

End Keeps.

(** X10.  The bound of the log is an invariant of the service: when the log
    holds at most 1000 lines, it still does after [api_stop],
    [api_stop_pid], [api_kill_all], [api_ctrl], the shutdown loop,
    [get_all_processes] and any resumption of a command's stream. *)
Theorem routes_keep_log_bounded
    (os : OS) (w : World) (filename key : string) (pid : Z) (g : Gen)
    (Hlog : (length (logs (state w)) <= 1000)%nat) :
  (length (logs (state (snd (api_stop os filename w)))) <= 1000)%nat
  /\ (length (logs (state (snd (api_stop_pid os pid w)))) <= 1000)%nat
  /\ (length (logs (state (snd (api_kill_all os w)))) <= 1000)%nat
  /\ (length (logs (state (snd (api_ctrl os key w)))) <= 1000)%nat
  /\ (length (logs (state (snd (shutdown os w)))) <= 1000)%nat
  /\ (length (logs (state (snd (get_all_processes os w)))) <= 1000)%nat
  /\ (length (logs (state (snd (next os g w)))) <= 1000)%nat.
Proof.
  assert (Hl : forall d log line, log_bounded d log -> log_bounded d (logged line log))
    by (intros d log line _; apply length_logged).
  assert (Hd : forall d log k, log_bounded d log -> log_bounded (Dict.remove k d) log)
    by (intros d log k H; exact H).
  assert (Hs : forall d log k (v : Info),
             log_bounded d log -> log_bounded (Dict.set k v d) log)
    by (intros d log k v H; exact H).
  repeat split.
  - exact (keeps_api_stop os log_bounded Hl Hd filename w Hlog).
  - exact (keeps_api_stop_pid os log_bounded Hl Hd pid w Hlog).
  - exact (keeps_api_kill_all os log_bounded Hl Hd w Hlog).
  - exact (keeps_api_ctrl os log_bounded Hl key w Hlog).
  - exact (keeps_shutdown os log_bounded Hl w Hlog).
  - exact (keeps_get_all_processes os log_bounded w Hlog).
  - exact (keeps_next os log_bounded Hl Hd Hs g w Hlog).
Qed.

Lemma routes_keep_log_bounded_witness :
  (length (logs (state (snd (api_kill_all Examples.os_tree
     (Examples.world [Examples.entry 7 "python x.py"]))))) <= 1000)%nat.
Proof.
  refine (proj1 (proj2 (proj2 (routes_keep_log_bounded Examples.os_tree
            (Examples.world [Examples.entry 7 "python x.py"]) "" "C" 7 GenDone _)))).
  cbn. lia.
Defined.

Lemma incl_remove (d0 d : Dict.t Info) (pid : Z) :
  incl d d0 -> incl (Dict.remove pid d) d0.
Proof.
  intros Hincl kv Hin. apply Hincl. unfold Dict.remove in Hin.
  apply filter_In in Hin. tauto.
Qed.

(** X11.  The routes that stop, kill, signal and list, and the shutdown
    loop, never add a registry entry and never alter one: every entry in the
    registry after them was in it before, under the same pid and with the
    same command and type. *)
Theorem routes_never_add_entries
    (os : OS) (w : World) (filename key : string) (pid : Z) :
  incl (registry (snd (api_stop os filename w))) (registry w)
  /\ incl (registry (snd (api_stop_pid os pid w))) (registry w)
  /\ incl (registry (snd (api_kill_all os w))) (registry w)
  /\ incl (registry (snd (api_ctrl os key w))) (registry w)
  /\ incl (registry (snd (shutdown os w))) (registry w)
  /\ incl (registry (snd (get_all_processes os w))) (registry w).
Proof.
  assert (Hl : forall d log line,
             entries_of (registry w) d log -> entries_of (registry w) d (logged line log))
    by (intros d log line H; exact H).
  assert (Hd : forall d log k,
             entries_of (registry w) d log ->
             entries_of (registry w) (Dict.remove k d) log)
    by (intros d log k H; now apply incl_remove).
  assert (H0 : entries_of (registry w) (registry w) (logs (state w)))
    by apply incl_refl.
  repeat split.
  - exact (keeps_api_stop os _ Hl Hd filename w H0).
  - exact (keeps_api_stop_pid os _ Hl Hd pid w H0).
  - exact (keeps_api_kill_all os _ Hl Hd w H0).
  - exact (keeps_api_ctrl os _ Hl key w H0).
  - exact (keeps_shutdown os _ Hl w H0).
  - exact (keeps_get_all_processes os _ w H0).
Qed.

(** ** [api_ctrl] with a signal key *)

(** X12.  For the key [C] ([Z]) [api_ctrl] asks [os.kill] to send SIGINT
    (SIGTSTP) to every registered pid, once each and in registry order, and
    sends no other signal.  A failing [os.kill] is swallowed: the route still
    answers with success, and it logs at most one line per pid, each of them
    a [Sent Ctrl+<key>] line for a registered pid.  The registry is left as it
    was. *)
Theorem api_ctrl_signals_every_registered
    (os : OS) (key : string) (sig : Signal) (w : World)
    (Hkey : ctrl_signal key = Some sig) :
  exists w' new,
    api_ctrl os key w
    = (Ret {| success := true; message := None; killed := None |}, w')
    /\ history w' = (history w ++ new)%list
    /\ signals_sent new = map (fun pid => (pid, sig)) (Dict.keys (registry w))
    /\ (length (printed new) <= length (Dict.keys (registry w)))%nat
    /\ Forall (fun line => exists pid, In pid (Dict.keys (registry w))
                                       /\ ctrl_line key pid line)
         (printed new)
    /\ registry w' = registry w.
Proof.
  unfold api_ctrl. rewrite bind_eq. unfold get_state at 1. rewrite bind_eq.
  match goal with
  | |- context [for_each ?l ?a ?b w] =>
      destruct (for_each_rule
                  (fun done (_ : unit) w1 =>
                     exists new,
                       history w1 = (history w ++ new)%list
                       /\ signals_sent new = map (fun pid => (pid, sig)) done
                       /\ (length (printed new) <= length done)%nat
                       /\ Forall (fun line => exists pid, In pid done
                                                          /\ ctrl_line key pid line)
                            (printed new)
                       /\ registry w1 = registry w) l b)
      with (acc := a) (w := w)
      as [acc' [w' [Hrun [new [Hh [Hsig [Hlen [Hlines Hreg]]]]]]]]
  end.
  - intros done pid rest [] w1 _ [new [Hh [Hsig [Hlen [Hlines Hreg]]]]].
    assert (Hold : Forall (fun line => exists pid0, In pid0 (done ++ [pid])
                                                    /\ ctrl_line key pid0 line)
                     (printed new)).
    { eapply Forall_impl; [|exact Hlines].
      intros line [pid0 [Hin Hline]]. exists pid0.
      split; [apply in_or_app; now left | exact Hline]. }
    rewrite try_except_eq, bind_eq.
    assert (Hcall : (if String.eqb key "C" then os_kill_signal os pid SIGINT
                     else if String.eqb key "Z" then os_kill_signal os pid SIGTSTP
                     else ret tt) = os_kill_signal os pid sig).
    { unfold ctrl_signal in Hkey.
      destruct (String.eqb key "C"); [now injection Hkey as <-|].
      destruct (String.eqb key "Z"); [now injection Hkey as <-|].
      discriminate Hkey. }
    rewrite Hcall. unfold os_kill_signal at 1. unfold call at 1.
    destruct (os_signal os (history w1) pid sig) as [[]|e].
    + rewrite bind_eq, log_message_eq. cbv zeta. unfold ret.
      do 2 eexists. split; [reflexivity|].
      eexists (new ++ [EvSignal pid sig; EvPrint _])%list.
      cbn [history state logs processes registry].
      split; [rewrite Hh, <- !app_assoc; reflexivity|].
      split; [rewrite signals_sent_app, Hsig, map_app; reflexivity|].
      rewrite printed_app. cbn [printed].
      split; [rewrite !length_app; cbn [length]; lia|].
      split; [|exact Hreg].
      apply Forall_app. split; [exact Hold|].
      constructor; [|constructor].
      exists pid. split; [apply in_or_app; right; now left|].
      eexists. reflexivity.
    + unfold ret. do 2 eexists. split; [reflexivity|].
      exists (new ++ [EvSignal pid sig])%list.
      cbn [history state logs processes registry].
      split; [rewrite Hh, <- !app_assoc; reflexivity|].
      split; [rewrite signals_sent_app, Hsig, map_app; reflexivity|].
      rewrite printed_app. cbn [printed]. rewrite app_nil_r.
      split; [rewrite length_app; cbn [length]; lia|].
      split; [exact Hold | exact Hreg].
  - exists []. rewrite app_nil_r. repeat split; constructor.
  - rewrite Hrun. unfold ret. exists w', new.
    split; [reflexivity|]. repeat split; assumption.
Qed.

Lemma api_ctrl_signals_every_registered_witness :
  exists w',
    api_ctrl MoreExamples.os_signal_5 "C"
      (Examples.world [Examples.entry 5 "sleep 100"; Examples.entry 6 "sleep 200"])
    = (Ret {| success := true; message := None; killed := None |}, w')
    /\ signals_sent (history w') = [(5, SIGINT); (6, SIGINT)]
    /\ length (logs (state w')) = 1%nat.
Proof.
  destruct (api_ctrl_signals_every_registered MoreExamples.os_signal_5 "C" SIGINT
              (Examples.world [Examples.entry 5 "sleep 100";
                               Examples.entry 6 "sleep 200"]) eq_refl)
    as [w' [new [Hrun [Hh [Hsig _]]]]].
  exists w'. split; [exact Hrun|]. split.
  - rewrite Hh. exact Hsig.
  - replace w' with (snd (api_ctrl MoreExamples.os_signal_5 "C"
                            (Examples.world [Examples.entry 5 "sleep 100";
                                             Examples.entry 6 "sleep 200"])))
      by (rewrite Hrun; reflexivity).
    vm_compute. reflexivity.
Defined.

(** ** The shutdown loop *)


(** ** [api_stop], in detail *)

Lemma for_process_iter_quiet (os : OS) (test : ProcAttrs -> bool)
    (body : Z -> ProcAttrs -> list Z -> M (list Z)) (acc0 : list Z) (w : World) :
  (forall h pid attrs, os_proc_info os h pid = Some attrs -> test attrs = false) ->
  (forall pid attrs acc w1,
      test attrs = false -> body pid attrs acc w1 = (Ret acc, w1)) ->
  exists w' evs,
    for_process_iter os acc0 body w = (Ret acc0, w')
    /\ state w' = state w
    /\ history w' = (history w ++ EvPids :: evs)%list
    /\ process_calls evs = []
    /\ kills_sent evs = [].
Proof.
  intros Hscan Hbody. unfold for_process_iter. rewrite bind_eq. unfold call at 1.
  destruct (for_each_rule
              (fun (_ : list Z) acc w1 =>
                 acc = acc0 /\ state w1 = state w
                 /\ exists evs,
                      history w1 = (history w ++ EvPids :: evs)%list
                      /\ process_calls evs = [] /\ kills_sent evs = [])
              (os_pids os (history w))
              (fun pid acc =>
                 r <- inspect os pid ;;
                 match r with
                 | Some attrs => body pid attrs acc
                 | None => ret acc
                 end))
    with (acc := acc0)
         (w := {| state := state w; history := history w ++ [EvPids] |})
    as [acc' [w' [Hrun [-> [Hst [evs [Hh [Hcalls Hkills]]]]]]]].
  - intros done pid rest acc w1 _ [-> [Hst [evs [Hh [Hcalls Hkills]]]]].
    rewrite bind_eq. unfold inspect at 1.
    assert (Hw : exists evs',
               (history w1 ++ [EvProcInfo pid (os_proc_info os (history w1) pid)])%list
               = (history w ++ EvPids :: evs')%list
               /\ process_calls evs' = [] /\ kills_sent evs' = []).
    { exists (evs ++ [EvProcInfo pid (os_proc_info os (history w1) pid)])%list.
      split; [rewrite Hh, <- app_assoc; reflexivity|].
      rewrite process_calls_app, kills_sent_app, Hcalls, Hkills. split; reflexivity. }
    destruct (os_proc_info os (history w1) pid) as [attrs|] eqn:Hinfo.
    + rewrite Hbody by exact (Hscan _ _ _ Hinfo).
      do 2 eexists. split; [reflexivity|]. split; [reflexivity|].
      split; [exact Hst | exact Hw].
    + unfold ret. do 2 eexists. split; [reflexivity|]. split; [reflexivity|].
      split; [exact Hst | exact Hw].
  - split; [reflexivity|]. split; [reflexivity|]. exists [].
    cbn [history]. split; [reflexivity|]. split; reflexivity.
  - exists w', evs. split; [exact Hrun|]. split; [exact Hst|].
    split; [exact Hh|]. split; assumption.
Qed.

(** X14.  When no registered command contains the filename and no process
    that [process_iter] can yield has it on its command line, [api_stop]
    calls neither [psutil.Process] nor any kill, leaves the registry as it
    was, logs only its request line and answers
    [No process found for <filename>] with success false. *)
Theorem api_stop_no_match (os : OS) (filename : string) (w : World)
    (Hreg : forall pid info, In (pid, info) (registry w) ->
                             PyStr.contains filename (info_cmd info) = false)
    (Hscan : forall h pid attrs, os_proc_info os h pid = Some attrs ->
                                 cmdline_contains filename attrs = false) :
  let line := log_line (os_now os (history w)) "PROCESS"
                ("Stop requested for: " ++ filename) in
  exists w' evs,
    api_stop os filename w
    = (Ret {| success := false;
              message := Some ("No process found for " ++ filename);
              killed := None |}, w')
    /\ registry w' = registry w
    /\ logs (state w') = logged line (logs (state w))
    /\ history w' = (history w ++ EvPrint line :: EvPids :: evs)%list
    /\ process_calls evs = []
    /\ kills_sent evs = [].
Proof.
  intros line.
  unfold api_stop. rewrite bind_eq, log_message_eq. cbv beta iota zeta. fold line.
  rewrite bind_eq. unfold get_state at 1. cbn [state processes]. rewrite bind_eq.
  match goal with
  | |- context [for_each ?l ?a ?b ?w0] =>
      destruct (for_each_rule
                  (fun (_ : list (Z * Info)) acc w1 => acc = [] /\ w1 = w0) l b)
      with (acc := a) (w := w0) as [ks1 [w1 [Hrun1 [-> ->]]]]
  end.
  - intros done [pid info] rest acc w1 Hl [-> ->].
    rewrite (Hreg pid info).
    + unfold ret. do 2 eexists. split; [reflexivity|]. split; reflexivity.
    + unfold Dict.items in Hl. rewrite Hl. apply in_or_app. right. now left.
  - split; reflexivity.
  - rewrite Hrun1, bind_eq.
    match goal with
    | |- context [for_process_iter os ?a ?b ?w0] =>
        destruct (for_process_iter_quiet os (cmdline_contains filename) b a w0 Hscan)
        as [w2 [evs [Hrun2 [Hst [Hh [Hcalls Hkills]]]]]]
    end.
    + intros pid attrs acc w1 Htest. rewrite try_except_eq. cbv zeta.
      unfold cmdline_contains in Htest. rewrite Htest. reflexivity.
    + rewrite Hrun2. unfold ret. exists w2, evs.
      split; [reflexivity|]. unfold registry. rewrite Hst.
      cbn [state processes logs history] in *.
      split; [reflexivity|]. split; [reflexivity|].
      split; [rewrite Hh, <- app_assoc; reflexivity|].
      split; assumption.
Qed.

Lemma api_stop_no_match_witness :
  exists w',
    api_stop Examples.os_tree "backup.sh"
      (Examples.world [Examples.entry 5 "sleep 100"])
    = (Ret {| success := false;
              message := Some "No process found for backup.sh";
              killed := None |}, w')
    /\ Dict.keys (registry w') = [5].
Proof.
  destruct (api_stop_no_match Examples.os_tree "backup.sh"
              (Examples.world [Examples.entry 5 "sleep 100"]))
    as [w' [evs [Hrun [Hreg _]]]].
  - intros pid info [H|[]]. injection H as <- <-. reflexivity.
  - intros h pid attrs. cbn.
    destruct (pid =? 1); [intros H; injection H as <-; reflexivity|].
    destruct (pid =? 7); [intros H; injection H as <-; reflexivity|].
    destruct (pid =? 30); [intros H; injection H as <-; reflexivity|].
    discriminate.
  - exists w'. split; [exact Hrun|]. rewrite Hreg. reflexivity.
Defined.

Lemma wf_unique_value (d : Dict.t Info) (k : Z) (v v' : Info) :
  Dict.wf d -> In (k, v) d -> In (k, v') d -> v = v'.
Proof.
  unfold Dict.wf, Dict.keys.
  induction d as [|[k0 v0] d IH]; intros Hwf Hin Hin'; [destruct Hin|].
  cbn [map fst] in Hwf. inversion Hwf as [|? ? Hnot Hwf']; subst.
  assert (Hkey : forall u, In (k0, u) d -> False).
  { intros u Hu. apply Hnot. apply in_map_iff. exists (k0, u). split; [reflexivity|exact Hu]. }
  destruct Hin as [Heq|Hin], Hin' as [Heq'|Hin'].
  - congruence.
  - injection Heq as <- <-. exfalso. eapply Hkey. exact Hin'.
  - injection Heq' as <- <-. exfalso. eapply Hkey. exact Hin.
  - now apply IH.
Qed.

(** X15.  With any filename, [api_stop] does not raise, and every registry
    entry whose command does not contain the filename is still registered
    afterwards, whatever the process scan finds.  The answer reports success
    exactly when its list of killed pids is not empty. *)
Theorem api_stop_keeps_other_entries (os : OS) (filename : string) (w : World)
    (Hwf : Dict.wf (registry w)) :
  exists resp w',
    api_stop os filename w = (Ret resp, w')
    /\ (forall pid info,
          In (pid, info) (registry w) ->
          PyStr.contains filename (info_cmd info) = false ->
          In (pid, info) (registry w'))
    /\ success resp = match killed resp with
                      | Some (_ :: _) => true
                      | _ => false
                      end.
Proof.
  unfold api_stop. rewrite bind_eq, log_message_eq. cbv beta iota zeta.
  rewrite bind_eq. unfold get_state at 1. cbn [state processes]. rewrite bind_eq.
  match goal with
  | |- context [for_each ?l ?a ?b ?w0] =>
      destruct (for_each_rule
                  (fun done acc w1 =>
                     processes (state w1) = without acc (registry w)
                     /\ forall pid, In pid acc ->
                          exists info, In (pid, info) done
                                       /\ PyStr.contains filename (info_cmd info) = true)
                  l b)
      with (acc := a) (w := w0) as [ks1 [w1 [Hrun1 [Hreg1 Hks1]]]]
  end.
  - intros done [x info] rest acc w1 Hl [Hreg Hacc].
    assert (Hmono : forall pid, In pid acc ->
               exists info0, In (pid, info0) (done ++ [(x, info)])
                             /\ PyStr.contains filename (info_cmd info0) = true).
    { intros pid Hin. destruct (Hacc pid Hin) as [info0 [Hin0 Hc]].
      exists info0. split; [apply in_or_app; now left | exact Hc]. }
    destruct (PyStr.contains filename (info_cmd info)) eqn:Hmatch.
    + destruct (kill_process_tree_spec os x w1) as [evs [log' [Hkill _]]].
      rewrite bind_eq, Hkill.
      destruct (root_resolved os (history w1) x
                && descendants_listed os (history w1) x).
      * assert (Hmem : Dict.mem x (registry w1) = true).
        { apply mem_true_iff. unfold registry at 1. rewrite Hreg.
          unfold Dict.items in Hl.
          apply in_keys_without.
          - unfold Dict.keys. rewrite Hl, map_app. apply in_or_app. right. now left.
          - intros Hin. destruct (Hacc x Hin) as [info0 [Hin0 _]].
            unfold Dict.wf, Dict.keys in Hwf. rewrite Hl, map_app in Hwf.
            cbn [map fst] in Hwf. apply NoDup_remove_2 in Hwf.
            apply Hwf, in_or_app. left.
            apply in_map_iff. exists (x, info0). split; [reflexivity | exact Hin0]. }
        rewrite bind_eq.
        rewrite processes_delitem_present by exact Hmem.
        cbv zeta. rewrite bind_eq, log_message_eq. cbv zeta. unfold ret.
        do 2 eexists. split; [reflexivity|].
        cbn [state processes registry]. unfold registry at 1. rewrite Hreg.
        split; [symmetry; apply without_snoc|].
        intros pid Hin. apply in_app_or in Hin. destruct Hin as [Hin|[<-|[]]].
        -- now apply Hmono.
        -- exists info. split; [apply in_or_app; right; now left | exact Hmatch].
      * unfold ret. do 2 eexists. split; [reflexivity|].
        cbn [state processes]. split; [exact Hreg | exact Hmono].
    + unfold ret. do 2 eexists. split; [reflexivity|].
      split; [exact Hreg | exact Hmono].
  - cbn [state processes]. split; [|intros pid []].
    unfold without. cbn [existsb negb]. unfold registry.
    induction (processes (state w)) as [|kv d IH]; cbn [filter]; [reflexivity|].
    now rewrite <- IH.
  - rewrite Hrun1, bind_eq.
    match goal with
    | |- context [for_process_iter os ?a ?b ?w0] =>
        destruct (for_process_iter_scan os (cmdline_contains filename) b a w0)
        as [ks [w2 [Hrun2 [phase2 [_ [Hreg2 _]]]]]]
    end.
    + intros pid attrs acc w0. apply stop_scan_body.
    + rewrite Hrun2. cbn [state processes] in Hreg2.
      assert (Hkeep : forall pid info,
                 In (pid, info) (registry w) ->
                 PyStr.contains filename (info_cmd info) = false ->
                 In (pid, info) (registry w2)).
      { intros pid info Hin Hno. unfold registry at 1. rewrite Hreg2, Hreg1.
        unfold without. apply filter_In. split; [exact Hin|]. cbn [fst].
        apply negb_true_iff.
        destruct (existsb (Z.eqb pid) ks1) eqn:E; [|reflexivity].
        apply existsb_exists in E. destruct E as [y [Hy Heq]].
        apply Z.eqb_eq in Heq. subst y.
        destruct (Hks1 pid Hy) as [info0 [Hin0 Hyes]].
        unfold Dict.items in Hin0.
        rewrite (wf_unique_value _ _ _ _ Hwf Hin Hin0) in Hno. congruence. }
      destruct ks as [|k ks']; unfold ret; do 2 eexists;
        (split; [reflexivity|]); (split; [exact Hkeep | reflexivity]).
Qed.

Lemma api_stop_keeps_other_entries_witness :
  exists resp w',
    api_stop Examples.os_tree "x.py"
      (Examples.world [Examples.entry 5 "sleep 100"; Examples.entry 7 "python x.py"])
    = (Ret resp, w')
    /\ In (Examples.entry 5 "sleep 100") (registry w').
Proof.
  destruct (api_stop_keeps_other_entries Examples.os_tree "x.py"
              (Examples.world [Examples.entry 5 "sleep 100";
                               Examples.entry 7 "python x.py"]))
    as [resp [w' [Hrun [Hkeep _]]]].
  - unfold Dict.wf. cbn. repeat constructor; cbn; intuition discriminate.
  - exists resp, w'. split; [exact Hrun|].
    apply Hkeep; [now left | reflexivity].
Defined.

(** ** [api_execute] *)

Lemma lstrip_all_space (s : string) : all_space s = true -> PyText.lstrip s = "".
Proof.
  induction s as [|c s IH]; [reflexivity|]. cbn [all_space PyText.lstrip].
  destruct (PyStr.isspace c); [exact IH | discriminate].
Qed.

Lemma lstrip_not_all_space (s : string) :
  all_space s = false ->
  exists c rest, PyText.lstrip s = String c rest /\ PyStr.isspace c = false.
Proof.
  induction s as [|c s IH]; [discriminate|]. cbn [all_space PyText.lstrip].
  destruct (PyStr.isspace c) eqn:Hc; [exact IH|].
  intros _. now exists c, s.
Qed.

Lemma rstrip_keeps_head (c : ascii) (rest : string) :
  PyStr.isspace c = false ->
  exists rest', PyStr.rstrip (String c rest) = String c rest'.
Proof.
  intros Hc. cbn [PyStr.rstrip]. rewrite Hc.
  destruct (PyStr.rstrip rest); eexists; reflexivity.
Qed.

(** X16.  [api_execute] answers [No command provided], and starts nothing,
    exactly when the command is empty or all white space.  Otherwise it
    answers with the stream of the command stripped of the white space at
    both ends, which is then not empty. *)
Theorem api_execute_blank_or_stream (command current_dir : string) :
  (all_space command = true
   /\ api_execute command current_dir = ExecuteError "No command provided")
  \/ (all_space command = false
      /\ exists cmd,
           api_execute command current_dir
           = ExecuteStream (GenStart cmd current_dir)
           /\ cmd = PyStr.rstrip (PyText.lstrip command)
           /\ cmd <> ""
           /\ PyText.lstrip cmd = cmd
           /\ no_trailing_space cmd = true).
Proof.
  unfold api_execute, PyText.strip.
  destruct (all_space command) eqn:Hspace.
  - left. split; [reflexivity|]. now rewrite lstrip_all_space.
  - right. split; [reflexivity|].
    destruct (lstrip_not_all_space command Hspace) as [c [rest [Hl Hc]]].
    destruct (rstrip_split (PyText.lstrip command)) as [trail [_ [_ Hbody]]].
    rewrite Hl in *.
    destruct (rstrip_keeps_head c rest Hc) as [rest' Hr]. rewrite Hr in *.
    eexists. split; [reflexivity|]. split; [reflexivity|].
    split; [discriminate|]. split; [|exact Hbody].
    cbn [PyText.lstrip]. now rewrite Hc.
Qed.

(** ** [api_run_uploaded] *)

Lemma contains_python_after_bash (s : string) :
  PyStr.contains "python" (PyStr.lower ("bash " ++ s))
  = PyStr.contains "python" (PyStr.lower s).
Proof. reflexivity. Qed.

Lemma contains_python_after_python3 (s : string) :
  PyStr.contains "python" (PyStr.lower ("python3 " ++ s)) = true.
Proof. reflexivity. Qed.

(** X17.  For an uploaded file that exists and can be copied,
    [api_run_uploaded] answers with the command [python3 <filename>] when the
    filename ends with [.py] (the test is case sensitive) and
    [bash <filename>] otherwise.  Executed, that command is registered with
    type [python] when the filename ends with [.py] or its lowercased text
    contains [python], and with type [bash] otherwise. *)
Theorem api_run_uploaded_command
    (path_exists : string -> bool) (copy : string -> string -> Res unit)
    (upload_dir current_dir filename : string) (p : Popen)
    (Hexists : path_exists (PyText.path_join upload_dir filename) = true)
    (Hcopy : copy (PyText.path_join upload_dir filename) current_dir = Ret tt) :
  exists cmd,
    api_run_uploaded path_exists copy upload_dir current_dir filename
    = Ret {| run_success := true;
             run_message := "File ready to run: " ++ cmd;
             run_command := Some cmd |}
    /\ cmd = (if PyText.endswith ".py" filename then "python3 " else "bash ")
             ++ filename
    /\ info_type (registered_info p cmd)
       = if PyText.endswith ".py" filename
            || PyStr.contains "python" (PyStr.lower filename)
         then "python" else "bash".
Proof.
  unfold api_run_uploaded. cbv zeta. rewrite Hexists, Hcopy. cbn [negb].
  eexists. split; [reflexivity|].
  unfold registered_info. cbn [info_type].
  destruct (PyText.endswith ".py" filename).
  - split; [reflexivity|]. now rewrite contains_python_after_python3.
  - split; [reflexivity|]. now rewrite contains_python_after_bash.
Qed.

Lemma api_run_uploaded_command_witness :
  api_run_uploaded MoreExamples.uploaded MoreExamples.copy_ok
    "/srv/uploads" "/home" "python_notes.sh"
  = Ret {| run_success := true;
           run_message := "File ready to run: bash python_notes.sh";
           run_command := Some "bash python_notes.sh" |}
  /\ info_type (registered_info (Examples.handle 1 [] 0) "bash python_notes.sh")
     = "python".
Proof.
  destruct (api_run_uploaded_command MoreExamples.uploaded MoreExamples.copy_ok
              "/srv/uploads" "/home" "python_notes.sh" (Examples.handle 1 [] 0)
              eq_refl eq_refl) as [cmd [Hrun [Hcmd Htype]]].
  cbn in Hcmd. subst cmd. split; [exact Hrun | exact Htype].
Defined.

(** X18.  When the filename starts with [/], [api_run_uploaded] looks for,
    and copies, the file at that absolute path: the upload directory plays no
    part in the answer. *)
Theorem api_run_uploaded_absolute_filename
    (path_exists : string -> bool) (copy : string -> string -> Res unit)
    (upload_dir upload_dir' current_dir filename : string)
    (Habs : PyText.startswith "/" filename = true) :
  PyText.path_join upload_dir filename = filename
  /\ api_run_uploaded path_exists copy upload_dir current_dir filename
     = api_run_uploaded path_exists copy upload_dir' current_dir filename.
Proof.
  assert (Hjoin : forall dir, PyText.path_join dir filename = filename).
  { intros dir. unfold PyText.path_join. now rewrite Habs. }
  split; [apply Hjoin|].
  unfold api_run_uploaded. cbv zeta. now rewrite !Hjoin.
Qed.

Lemma api_run_uploaded_absolute_filename_witness :
  PyText.path_join "/srv/uploads" "/etc/hosts" = "/etc/hosts".
Proof.
  exact (proj1 (api_run_uploaded_absolute_filename MoreExamples.uploaded
                  MoreExamples.copy_ok "/srv/uploads" "/tmp" "/home" "/etc/hosts"
                  eq_refl)).
Defined.

(** ** [api_logs] *)

Lemma join_snoc (sep : string) (l : list string) (x : string) :
  exists text, PyStr.join sep (l ++ [x]) = text ++ x.
Proof.
  unfold PyStr.join. induction l as [|y l [text IH]].
  - exists "". reflexivity.
  - cbn [app String.concat].
    destruct (l ++ [x])%list as [|z rest] eqn:E.
    + destruct l; discriminate E.
    + exists (y ++ sep ++ text). rewrite IH.
      now rewrite !string_append_assoc.
Qed.

(** X19.  [api_logs] answers with the log lines joined by newlines and
    changes nothing; called after [log_message], its text ends with the line
    that call logged. *)
Theorem api_logs_ends_with_newest (os : OS) (msg level : string) (w : World) :
  let line := "[" ++ os_now os (history w) ++ "] [" ++ level ++ "] " ++ msg in
  let w1 := snd (log_message os msg level w) in
  exists text,
    api_logs w1 = (Ret (text ++ line), w1)
    /\ fst (api_logs w1) = Ret (PyStr.join PyStr.newline (logs (state w1))).
Proof.
  intros line w1. subst w1. rewrite log_message_eq. cbv zeta. cbn [snd].
  fold (log_line (os_now os (history w)) level msg). fold line.
  change (log_line (os_now os (history w)) level msg) with line.
  destruct (logged_snoc line (logs (state w))) as [kept Hkept].
  destruct (join_snoc PyStr.newline kept line) as [text Htext].
  exists text. unfold api_logs. rewrite bind_eq. unfold get_state, ret.
  cbn [state logs fst]. rewrite Hkept, Htext. split; reflexivity.
Qed.
